(** * Healthcare insurance cost analysis: dashboard and bucketizer

    A shallow embedding of the two Python programs of the repository,

      - [healthcare_dashboard.py]: loader, sidebar filters, key metrics,
        age-group chart and premium calculator;
      - [pythonprogramtocleadataforpowerbiandalsogroupcategories.py]: the
        batch script that adds the four bucket columns,

    and the properties of their specification.

    Python's [float] and the [float64] columns of pandas are IEEE 754
    binary64 numbers: they are modelled by Rocq's primitive floats, which
    are the same numbers with the same correctly rounded operations and the
    same comparisons (every comparison with a NaN is false).  Python's [int]
    is modelled by [Z], strings by [string]. *)

From Stdlib Require Import ZArith List Sorted Bool String Ascii Lia Floats.
Import ListNotations.

Set Warnings "-inexact-float".

(* ===================================================================== *)
(** * Binary64 numbers as Python uses them *)
(* ===================================================================== *)

Module F64.

Local Open Scope Z_scope.

(** The correctly rounded (to nearest, ties to even) binary64 value of an
    integer; an integer too large in magnitude rounds to an infinity. *)
Definition round_Z (z : Z) : float :=
  SF2Prim (binary_normalize prec emax z 0 false).

(** The integers that round to a finite binary64 number. *)
Definition representable (z : Z) : bool := negb (is_infinity (round_Z z)).

(** [float(n)] for a Python [int], as the mixed operators [int - float],
    [float + int], ... apply it to their integer operand: the nearest
    binary64 number, and [OverflowError] ([None]) when the integer is too
    large to be converted. *)
Definition of_int (z : Z) : option float :=
  if representable z then Some (round_Z z) else None.

(** [x >= y] on floats. *)
Definition geb (x y : float) : bool := (y <=? x)%float.

(** The failure monad of Python's arithmetic: [None] is a raised
    exception. *)
Definition bind {A B : Type} (x : option A) (k : A -> option B) : option B :=
  match x with
  | Some a => k a
  | None => None
  end.

(** Python's built-in [max(a, b)] on two numbers: [b] when [b > a], else
    [a] (so a NaN in second position is never selected). *)
Definition py_max (a b : float) : float :=
  if (a <? b)%float then b else a.

(** [numpy.clip(x, lo, hi)] on one element: [minimum(maximum(x, lo), hi)];
    a NaN propagates. *)
Definition clip (x lo hi : float) : float :=
  if is_nan x then x
  else
    let y := if (x <? lo)%float then lo else x in
    if (hi <? y)%float then hi else y.

(** ** The order of binary64 numbers

    [SFcompare] orders two numbers by sign class, then exponent, then
    mantissa.  [rank] sends a number to that triple, so that comparisons
    become integer arithmetic. *)
Definition rank (f : spec_float) : Z * Z * Z :=
  match f with
  | S754_zero _ => (0, 0, 0)
  | S754_nan => (0, 0, 0)
  | S754_infinity s => (if s then -2 else 2, 0, 0)
  | S754_finite s m e =>
      if s then (-1, - e, - Zpos m) else (1, e, Zpos m)
  end.

Definition lex_lt (a b : Z * Z * Z) : Prop :=
  let '(a1, a2, a3) := a in
  let '(b1, b2, b3) := b in
  a1 < b1 \/ (a1 = b1 /\ (a2 < b2 \/ (a2 = b2 /\ a3 < b3))).

Definition lex_le (a b : Z * Z * Z) : Prop :=
  let '(a1, a2, a3) := a in
  let '(b1, b2, b3) := b in
  a1 < b1 \/ (a1 = b1 /\ (a2 < b2 \/ (a2 = b2 /\ a3 <= b3))).

(** The rank of a primitive float. *)
Definition frank (x : float) : Z * Z * Z := rank (Prim2SF x).

End F64.

Notation "x <- e ;; k" := (F64.bind e (fun x => k))
  (at level 61, e at next level, right associativity).

(* ===================================================================== *)
(** * The dashboard: [healthcare_dashboard.py] *)
(* ===================================================================== *)

Module Dashboard.

Local Open Scope string_scope.

(** ** Data model *)

(** One row of the insurance table, with its seven columns. *)
Record Row : Type := mkRow {
  age : Z;
  sex : string;
  bmi : float;
  children : Z;
  smoker : string;
  region : string;
  charges : float
}.

(** A [DataFrame] is the ordered sequence of its rows; the position of a
    row in the list is its position in the frame, and rows with equal
    contents at different positions are different rows. *)
Definition DataFrame : Type := list Row.

(** The values of the four sidebar widgets. *)
Record Sidebar : Type := mkSidebar {
  smoker_filter : string;
  region_filter : string;
  age_range : Z * Z;
  bmi_range : float * float
}.

(** ** Applying the filters (source lines 140-151) *)

(** The boolean mask of the first selection: the four comparisons joined
    by [&]. *)
Definition range_mask (c : Sidebar) (r : Row) : bool :=
  (age r >=? fst (age_range c))%Z &&
  (age r <=? snd (age_range c))%Z &&
  F64.geb (bmi r) (fst (bmi_range c)) &&
  (bmi r <=? snd (bmi_range c))%float.

(** Selection by a boolean mask keeps the rows whose mask entry is true,
    in their order. *)
Definition filtered_df (df : DataFrame) (c : Sidebar) : DataFrame :=
  let filtered_0 := df in
  let filtered_1 := filter (range_mask c) filtered_0 in
  let filtered_2 :=
    if negb (smoker_filter c =? "All")
    then filter (fun r => smoker r =? smoker_filter c) filtered_1
    else filtered_1 in
  let filtered_3 :=
    if negb (region_filter c =? "All")
    then filter (fun r => region r =? region_filter c) filtered_2
    else filtered_2 in
  filtered_3.

(** The criterion of the specification, as one decidable test on a row. *)
Definition passes (c : Sidebar) (r : Row) : bool :=
  range_mask c r &&
  ((smoker_filter c =? "All") || (smoker r =? smoker_filter c)) &&
  ((region_filter c =? "All") || (region r =? region_filter c)).

(** The positions, counted from [i], of the elements of [l] that [f]
    keeps: the index labels of a frame selected by the mask [map f l]. *)
Fixpoint kept_positions {A : Type} (f : A -> bool) (l : list A) (i : nat)
  : list nat :=
  match l with
  | [] => []
  | x :: t =>
      if f x then i :: kept_positions f t (S i)
      else kept_positions f t (S i)
  end.

(** The index of the filtered frame. *)
Definition filtered_index (df : DataFrame) (c : Sidebar) : list nat :=
  kept_positions (passes c) df 0.

(** ** The parts of NumPy that are used as a library

    The program calls NumPy's summation (through [Series.mean]) and its
    pseudo-random generator.  Their internals (the order in which a long
    column is added up, the Mersenne twister) are not part of this
    repository; the model takes them as an interface.  A sampler draws one
    value and returns the next generator state; an array of [n] samples
    is [n] successive draws. *)
Class NumPy : Type := {
  np_sum : list float -> float;
  RandomState : Type;
  random_seed : Z -> RandomState;
  randint : Z -> Z -> RandomState -> Z * RandomState;
  normal : float -> float -> RandomState -> float * RandomState;
  choice : nat -> option (list float) -> RandomState -> nat * RandomState;
  poisson : float -> RandomState -> Z * RandomState
}.

(** [size] successive draws of one sampler. *)
Fixpoint draws {St A : Type} (sample : St -> A * St) (size : nat) (st : St)
  : list A * St :=
  match size with
  | O => ([], st)
  | S k =>
      let (x, st1) := sample st in
      let (xs, st2) := draws sample k st1 in
      (x :: xs, st2)
  end.

(** A small instance, to run the model: columns are added from left to
    right starting from [0.0] (what NumPy does for fewer than eight
    elements), and the generator is a linear congruential counter. *)
Definition lcg_next (s : Z) : Z := (s * 1103515245 + 12345) mod 2147483648.

#[local] Instance small_numpy : NumPy := {|
  np_sum := fun l => fold_left PrimFloat.add l 0%float;
  RandomState := Z;
  random_seed := fun z => z;
  randint := fun lo hi s =>
    let s' := lcg_next s in (lo + s' mod (hi - lo), s')%Z;
  normal := fun mu sigma s =>
    let s' := lcg_next s in
    ((mu + sigma * (F64.round_Z (s' mod 7 - 3) / 2))%float, s');
  choice := fun n _ s =>
    let s' := lcg_next s in (Z.to_nat (s' mod Z.of_nat n), s');
  poisson := fun _ s =>
    let s' := lcg_next s in ((s' mod 4)%Z, s')
|}.

(** ** Loading the data (source lines 40-98) *)

(** What [pd.read_csv(file)] does on one path: it returns the parsed
    table, raises [FileNotFoundError], or raises another exception (a
    malformed or empty file, a permission or decoding error). *)
Inductive ReadResult : Type :=
| Parsed (df : DataFrame)
| FileNotFoundError
| OtherException (e : string).

Definition FileSystem : Type := string -> ReadResult.

(** The status line the loader shows. *)
Inductive Message : Type :=
| st_success (file : string)
| st_warning
| st_error (e : string).

Definition file_options : list string :=
  [ "insurance_etl_final.csv";
    "insurance_dashboard_ready.csv";
    "insurancedashboard.csv";
    "insurance_clean_final.csv";
    "insurance.csv" ].

(** How the [for] loop over the candidates ends. *)
Inductive LoopExit : Type :=
| Returned (file : string) (df : DataFrame)
| Exhausted
| Raised (e : string).

(** The loop of [load_data]: a candidate that is not found is skipped
    ([continue]); any other exception leaves the loop for the outer
    handler. *)
Fixpoint try_files (read_csv : FileSystem) (files : list string) : LoopExit :=
  match files with
  | [] => Exhausted
  | file :: rest =>
      match read_csv file with
      | Parsed df => Returned file df
      | FileNotFoundError => try_files read_csv rest
      | OtherException e => Raised e
      end
  end.

(** Rows of a frame built from seven columns. *)
Fixpoint frame_of_columns (ages : list Z) (sexes : list string)
  (bmis : list float) (children : list Z) (smokers regions : list string)
  (charges : list float) : DataFrame :=
  match ages, sexes, bmis, children, smokers, regions, charges with
  | a :: ages', s :: sexes', b :: bmis', k :: children', m :: smokers',
    r :: regions', c :: charges' =>
      mkRow a s b k m r c
      :: frame_of_columns ages' sexes' bmis' children' smokers' regions'
           charges'
  | _, _, _, _, _, _, _ => []
  end.

(** [np.clip] on an integer. *)
Definition clip_int (x lo hi : Z) : Z := Z.min (Z.max x lo) hi.

Definition n_samples : nat := 1000.

Section WithNumPy.

Context {numpy : NumPy}.

(** [create_sample_data]: the generator is seeded with 42, then the seven
    arrays are drawn in the order of the source. *)
Definition create_sample_data : DataFrame :=
  let st := random_seed 42 in
  let (ages, st) := draws (randint 18 65) n_samples st in
  let (bmis, st) := draws (normal 26 4) n_samples st in
  let bmis := map (fun b => F64.clip b 15 50) bmis in
  let (smokers_i, st) :=
    draws (choice 2 (Some [0.2; 0.8]%float)) n_samples st in
  let smokers := map (fun i => nth i ["yes"; "no"] "no") smokers_i in
  let (regions_i, st) := draws (choice 4 None) n_samples st in
  let regions :=
    map (fun i =>
           nth i ["northeast"; "northwest"; "southeast"; "southwest"]
             "southwest") regions_i in
  let (sexes_i, st) := draws (choice 2 None) n_samples st in
  let sexes := map (fun i => nth i ["male"; "female"] "female") sexes_i in
  let (children, st) := draws (poisson 1) n_samples st in
  let children := map (fun k => clip_int k 0 5) children in
  let base_charges :=
    map (fun abk : Z * float * Z =>
           let '(a, b, k) := abk in
           (F64.round_Z (5000 + a * 100) + b * 50
            + F64.round_Z (k * 500))%float)
        (combine (combine ages bmis) children) in
  let smoking_multiplier :=
    map (fun m => if m =? "yes" then 3.5%float else 1.0%float) smokers in
  let (noise, st) := draws (normal 0 2000) n_samples st in
  let charges :=
    map (fun bmn : float * float * float =>
           let '(b, m, n) := bmn in (b * m + n)%float)
        (combine (combine base_charges smoking_multiplier) noise) in
  let charges := map (fun c => F64.clip c 1000 60000) charges in
  frame_of_columns ages sexes bmis children smokers regions charges.

(** [load_data]: the table and the status line shown with it. *)
Definition load_data_from (read_csv : FileSystem) (files : list string)
  : DataFrame * Message :=
  match try_files read_csv files with
  | Returned file df => (df, st_success file)
  | Exhausted => (create_sample_data, st_warning)
  | Raised e => (create_sample_data, st_error e)
  end.

Definition load_data (read_csv : FileSystem) : DataFrame * Message :=
  load_data_from read_csv file_options.

(** ** Key metrics (source lines 154-163) *)

(** [Series.mean()]: missing values (NaN) are skipped, the others are
    added up and divided by their number; NaN when nothing is left. *)
Definition Series_mean (s : list float) : float :=
  let values := filter (fun x => negb (is_nan x)) s in
  (np_sum values / F64.round_Z (Z.of_nat (List.length values)))%float.

(** The charges of the rows whose smoker field is [label]. *)
Definition charges_where (label : string) (filtered : DataFrame) : list float :=
  map charges (filter (fun r => smoker r =? label) filtered).

Definition smoker_multiplier (filtered : DataFrame) : float :=
  if (0 <? List.length filtered)%nat then
    let smoker_yes_data := charges_where "yes" filtered in
    let smoker_no_data := charges_where "no" filtered in
    let smoker_yes_mean :=
      if (0 <? List.length smoker_yes_data)%nat
      then Series_mean smoker_yes_data else 0%float in
    let smoker_no_mean :=
      if (0 <? List.length smoker_no_data)%nat
      then Series_mean smoker_no_data else 1%float in
    if (0 <? smoker_no_mean)%float
    then (smoker_yes_mean / smoker_no_mean)%float
    else 0%float
  else 0%float.

(** ** Average charges by age group (source lines 294-303) *)

(** [bins.searchsorted(x, side='left')] for increasing [bins]: the number
    of edges strictly below [x]. *)
Fixpoint searchsorted_left (bins : list Z) (x : Z) : nat :=
  match bins with
  | [] => O
  | b :: rest => if (b <? x)%Z then S (searchsorted_left rest x) else O
  end.

(** [pd.cut(x, bins, labels=labels, include_lowest=include_lowest)] on one
    value, with the default [right=True], as pandas computes it: the bin
    number is [searchsorted(x, side='left')], set to 1 for a value on the
    first edge when [include_lowest]; bin numbers 0 and [len(bins)] are
    outside every bin (the result is missing), and bin number [i] carries
    [labels[i-1]].  So the bin with edges [lo, hi] holds [lo < x <= hi]. *)
Definition pd_cut (x : Z) (bins : list Z) (labels : list string)
  (include_lowest : bool) : option string :=
  let ids := searchsorted_left bins x in
  let ids :=
    if include_lowest && match bins with b0 :: _ => (x =? b0)%Z | [] => false end
    then 1%nat else ids in
  if (ids =? 0)%nat || (ids =? List.length bins)%nat then None
  else nth_error labels (ids - 1).

Definition age_bins : list Z := [17; 30; 40; 50; 65]%Z.
Definition age_labels : list string := ["18-29"; "30-39"; "40-49"; "50+"].

(** The [age_group] column of [filtered_df_copy]. *)
Definition age_group (r : Row) : option string :=
  pd_cut (age r) age_bins age_labels true.

Definition has_label (lab : string) (g : option string) : bool :=
  match g with
  | Some l => l =? lab
  | None => false
  end.

(** [groupby('age_group', observed=True)['charges'].mean().reset_index()]:
    one line per category that has at least one row, in the order of the
    categories; rows without a category belong to no group. *)
Definition age_group_avg (filtered : DataFrame) : list (string * float) :=
  flat_map
    (fun lab =>
       let group := filter (fun r => has_label lab (age_group r)) filtered in
       if (0 <? List.length group)%nat
       then [(lab, Series_mean (map charges group))]
       else [])
    age_labels.

End WithNumPy.

(** ** Premium calculator (source lines 397-421) *)

(** The amounts shown in the premium breakdown. *)
Record PremiumQuote : Type := mkQuote {
  base_premium : Z;
  age_adjustment : float;
  bmi_adjustment : Z;
  children_adjustment : Z;
  regional_multiplier : float;
  total_premium : float
}.

Definition regional_multipliers : list (string * float) :=
  [ ("southeast", 1.15); ("northeast", 1.08);
    ("northwest", 1.02); ("southwest", 1.00) ]%float.

(** [d.get(key, default)] on a dictionary written as its items. *)
Fixpoint dict_get (d : list (string * float)) (key : string) (default : float)
  : float :=
  match d with
  | [] => default
  | (k, v) :: rest => if k =? key then v else dict_get rest key default
  end.

(** The body of the [Calculate Premium] branch.  The inputs [calc_age] and
    [calc_children] are Python integers; where an integer meets a float
    in an arithmetic operator Python converts it with [F64.of_int], which
    raises [OverflowError] ([None]) on an integer outside the range of
    binary64.  The integer constants of the source are exactly
    representable and are written as floats where they meet one.  The
    value [1000] that [max] returns when the floor applies is the integer
    of the source seen as a number. *)
Definition calculate_premium (calc_age : Z) (calc_bmi : float)
  (calc_smoker calc_region : string) (calc_children : Z)
  : option PremiumQuote :=
  let base_premium := if calc_smoker =? "no" then 8434%Z else 32050%Z in
  age_f <- F64.of_int calc_age ;;
  let age_adjustment := ((age_f - 39.2) * 250)%float in
  let bmi_adjustment := if F64.geb calc_bmi 30 then 4623%Z else 0%Z in
  let children_adjustment := (calc_children * 150)%Z in
  children_f <- F64.of_int children_adjustment ;;
  let subtotal :=
    (F64.round_Z base_premium + age_adjustment + F64.round_Z bmi_adjustment
     + children_f)%float in
  let multiplier := dict_get regional_multipliers calc_region 1.0%float in
  let total_premium := (subtotal * multiplier)%float in
  let total_premium := F64.py_max 1000 total_premium in
  Some (mkQuote base_premium age_adjustment bmi_adjustment
          children_adjustment multiplier total_premium).

(** The three lines of the risk assessment. *)
Definition smoking_risk : string := "🚬 High Risk: Smoking (3.5x multiplier)".
Definition bmi_risk : string := "⚖️ Moderate Risk: BMI ≥ 30 (obesity premium)".
Definition age_risk : string := "👤 Age Risk: 50+ years".

(** The risk factors listed under the estimate: each test appends its
    line, in the order of the source. *)
Definition risk_factors (calc_age : Z) (calc_bmi : float)
  (calc_smoker : string) : list string :=
  (if calc_smoker =? "yes" then [smoking_risk] else [])
  ++ (if F64.geb calc_bmi 30 then [bmi_risk] else [])
  ++ (if (calc_age >=? 50)%Z then [age_risk] else []).

(** What is shown under the estimate: the warning with the factors when
    the list is not empty, the low-risk note otherwise. *)
Inductive RiskDisplay : Type :=
| st_warning_factors (factors : list string)
| st_info_low_risk.

Definition risk_assessment (calc_age : Z) (calc_bmi : float)
  (calc_smoker : string) : RiskDisplay :=
  match risk_factors calc_age calc_bmi calc_smoker with
  | [] => st_info_low_risk
  | factors => st_warning_factors factors
  end.


(** ** Inputs used in the examples *)

Definition a_row (a : Z) (s : string) (c : float) : Row :=
  mkRow a "female" 27.5 1 s "southwest" c.

(** One smoker and one non-smoker who was charged nothing. *)
Definition free_non_smoker : DataFrame :=
  [a_row 45 "yes" 100; a_row 45 "no" 0].

(** One smoker and one non-smoker whose line is a refund. *)
Definition refunded_non_smoker : DataFrame :=
  [a_row 45 "yes" 100; a_row 45 "no" (-50)].

(** Three non-smokers. *)
Definition non_smokers : DataFrame :=
  [a_row 20 "no" 2000; a_row 30 "no" 4000; a_row 41 "no" 6000].

(** A folder in which the first candidate is present but is not a
    readable table, and the second candidate is a good one-row table. *)
Definition one_row_table : DataFrame := [a_row 45 "no" 5000].

Definition second_candidate_good : FileSystem :=
  fun file =>
    if file =? "insurance_etl_final.csv" then OtherException "ParserError"
    else if file =? "insurance_dashboard_ready.csv" then Parsed one_row_table
    else FileNotFoundError.

(** A folder with only the last candidate. *)
Definition last_candidate_only : FileSystem :=
  fun file =>
    if file =? "insurance.csv" then Parsed one_row_table
    else FileNotFoundError.


(** ** The bounds of the two sliders (source lines 123-137)

    Each slider is built on the minimum and the maximum of its column.
    The slider itself belongs to the interface library and is not
    modelled; only the bounds that the script computes for it are. *)



(** [Series.min()] and [Series.max()] of a float column: missing values
    are skipped and the others are compared one after the other; NaN when
    nothing is left. *)
Definition Series_min (s : list float) : float :=
  match filter (fun x => negb (is_nan x)) s with
  | [] => nan
  | x :: rest => fold_left (fun m y => if (y <? m)%float then y else m) rest x
  end.

Definition Series_max (s : list float) : float :=
  match filter (fun x => negb (is_nan x)) s with
  | [] => nan
  | x :: rest => fold_left (fun m y => if (m <? y)%float then y else m) rest x
  end.



(** [Series.unique()] on a column of strings: the distinct values, in
    the order of their first appearance. *)
Fixpoint unique_from (seen l : list string) : list string :=
  match l with
  | [] => []
  | x :: rest =>
      if existsb (String.eqb x) seen then unique_from seen rest
      else x :: unique_from (x :: seen) rest
  end.

Definition unique (l : list string) : list string := unique_from [] l.

(** [sorted(...)] on strings: the values in increasing order of their
    code points (which is the order of their UTF-8 bytes). *)
Fixpoint insert_sorted (x : string) (l : list string) : list string :=
  match l with
  | [] => [x]
  | y :: rest =>
      if String.leb x y then x :: l else y :: insert_sorted x rest
  end.

Definition sorted (l : list string) : list string :=
  fold_right insert_sorted [] l.

(** The options of the region select box of the sidebar, and those of
    the region select box of the calculator (source line 378). *)
Definition region_options (df : DataFrame) : list string :=
  "All" :: sorted (unique (map region df)).

Definition calc_region_options (df : DataFrame) : list string :=
  sorted (unique (map region df)).

(** ** The other key metrics (source lines 176-196) *)

Definition max_charges (filtered : DataFrame) : float :=
  if (0 <? List.length filtered)%nat
  then Series_max (map charges filtered) else 0%float.

Definition avg_charges {numpy : NumPy} (filtered : DataFrame) : float :=
  if (0 <? List.length filtered)%nat
  then Series_mean (map charges filtered) else 0%float.

(** The change shown under the number of records:
    [len(filtered_df) - len(df)]. *)
Definition records_delta (filtered df : DataFrame) : Z :=
  (Z.of_nat (List.length filtered) - Z.of_nat (List.length df))%Z.

(** ** Further inputs used in the examples *)

Definition three_rows : DataFrame :=
  [ mkRow 19 "female" 27.9 0 "yes" "southwest" 16884.924;
    mkRow 33 "male" 22.705 0 "no" "northwest" 21984.47061;
    mkRow 62 "female" 26.29 0 "yes" "southeast" 27808.7251 ]%float.

Definition narrow_selection : Sidebar :=
  mkSidebar "yes" "All" (30, 50)%Z (20, 28)%float.

Definition wide_selection : Sidebar :=
  mkSidebar "yes" "All" (18, 64)%Z (15, 50)%float.

End Dashboard.

(* ===================================================================== *)
(** * The bucketizer:
      [pythonprogramtocleadataforpowerbiandalsogroupcategories.py] *)
(* ===================================================================== *)

Module Bucketizer.

Local Open Scope string_scope.

(** ** The four bucketing functions (source lines 11-72) *)

Definition charges_band (val : float) : string :=
  if (val <? 5000)%float then "<5,000"
  else if (val <? 10000)%float then "5,000–9,999"
  else if (val <? 20000)%float then "10,000–19,999"
  else if (val <? 30000)%float then "20,000–29,999"
  else if (val <? 50000)%float then "30,000–49,999"
  else "50,000+".

Definition bmi_category (val : float) : string :=
  if (val <? 18.5)%float then "<18.5"
  else if (val <? 25)%float then "18.5–24.9"
  else if (val <? 30)%float then "25–29.9"
  else if (val <? 35)%float then "30–34.9"
  else "35+".

Definition age_group (val : Z) : string :=
  if (val <? 26)%Z then "18–25"
  else if (val <? 36)%Z then "26–35"
  else if (val <? 46)%Z then "36–45"
  else if (val <? 56)%Z then "46–55"
  else if (val <? 66)%Z then "56–65"
  else "66+".

Definition age_group_label (val : Z) : string :=
  if (val <? 26)%Z then "Young Adult"
  else if (val <? 36)%Z then "Adult"
  else if (val <? 46)%Z then "Middle Age"
  else if (val <? 56)%Z then "Senior"
  else if (val <? 66)%Z then "Elder"
  else "Super Senior".

(** The functions are written once in the source and run on whatever
    number the column holds.  On the Python integers of an int64 column
    the comparisons of [charges_band] and [bmi_category] are exact
    comparisons of integers; [val < 18.5] on an integer is [2 * val < 37].
    On the floats of a float64 age column the comparisons of [age_group]
    and [age_group_label] are comparisons of floats. *)
Definition charges_band_int (val : Z) : string :=
  if (val <? 5000)%Z then "<5,000"
  else if (val <? 10000)%Z then "5,000–9,999"
  else if (val <? 20000)%Z then "10,000–19,999"
  else if (val <? 30000)%Z then "20,000–29,999"
  else if (val <? 50000)%Z then "30,000–49,999"
  else "50,000+".

Definition bmi_category_int (val : Z) : string :=
  if (2 * val <? 37)%Z then "<18.5"
  else if (val <? 25)%Z then "18.5–24.9"
  else if (val <? 30)%Z then "25–29.9"
  else if (val <? 35)%Z then "30–34.9"
  else "35+".

Definition age_group_float (val : float) : string :=
  if (val <? 26)%float then "18–25"
  else if (val <? 36)%float then "26–35"
  else if (val <? 46)%float then "36–45"
  else if (val <? 56)%float then "46–55"
  else if (val <? 66)%float then "56–65"
  else "66+".

Definition age_group_label_float (val : float) : string :=
  if (val <? 26)%float then "Young Adult"
  else if (val <? 36)%float then "Adult"
  else if (val <? 46)%float then "Middle Age"
  else if (val <? 56)%float then "Senior"
  else if (val <? 66)%float then "Elder"
  else "Super Senior".

(** ** The threshold tables of the specification

    A bracket is a lower edge, an upper edge and a label; a missing edge
    is an unbounded side.  A value is in a bracket when it is at least the
    lower edge and strictly below the upper edge. *)
Definition Bracket : Type := option float * option float * string.

Definition in_bracket (x : float) (b : Bracket) : bool :=
  let '(lo, hi, _) := b in
  match lo with Some l => (l <=? x)%float | None => negb (is_nan x) end
  && match hi with Some h => (x <? h)%float | None => negb (is_nan x) end.

Definition charges_table : list Bracket :=
  [ (None, Some 5000, "<5,000");
    (Some 5000, Some 10000, "5,000–9,999");
    (Some 10000, Some 20000, "10,000–19,999");
    (Some 20000, Some 30000, "20,000–29,999");
    (Some 30000, Some 50000, "30,000–49,999");
    (Some 50000, None, "50,000+") ]%float.

Definition bmi_table : list Bracket :=
  [ (None, Some 18.5, "<18.5");
    (Some 18.5, Some 25, "18.5–24.9");
    (Some 25, Some 30, "25–29.9");
    (Some 30, Some 35, "30–34.9");
    (Some 35, None, "35+") ]%float.

(** ** Tables with named columns *)

(** A column holds integers, floats or strings, as [read_csv] infers. *)
Inductive Column : Type :=
| IntCol (v : list Z)
| FloatCol (v : list float)
| StrCol (v : list string).

(** A table is the sequence of its named columns. *)
Definition Frame : Type := list (string * Column).

Definition column_length (c : Column) : nat :=
  match c with
  | IntCol v => List.length v
  | FloatCol v => List.length v
  | StrCol v => List.length v
  end.

(** [df[name]]; [None] is [KeyError]. *)
Fixpoint getitem (df : Frame) (name : string) : option Column :=
  match df with
  | [] => None
  | (k, c) :: rest => if k =? name then Some c else getitem rest name
  end.

(** [df[name] = c]: an existing column is replaced where it stands, a new
    one is added after the last column. *)
Fixpoint setitem (df : Frame) (name : string) (c : Column) : Frame :=
  match df with
  | [] => [(name, c)]
  | (k, old) :: rest =>
      if k =? name then (k, c) :: rest else (k, old) :: setitem rest name c
  end.

(** [rint]: the nearest integer, ties to even, with the sign kept.  Below
    [2^52] in magnitude it is obtained by adding and subtracting [2^52];
    from [2^52] on every binary64 number is an integer. *)
Definition two52 : float := 4503599627370496%float.

Definition rint (x : float) : float :=
  let a := abs x in
  if (a <? two52)%float then
    let r := (a + two52 - two52)%float in
    if get_sign x then (- r)%float else r
  else x.

(** [Series.round(2)] on one float, as NumPy rounds to decimals: scale by
    [10^2], round to the nearest integer, scale back. *)
Definition round2 (x : float) : float := (rint (x * 100) / 100)%float.

(** ** The script (source lines 5-77) *)

(** [Series.round(2)]: the floats of a float64 column are rounded, an
    int64 column is returned as it is; [None] is the exception raised on
    a column of strings. *)
Definition Series_round2 (c : Column) : option Column :=
  match c with
  | IntCol v => Some (IntCol v)
  | FloatCol v => Some (FloatCol (map round2 v))
  | StrCol _ => None
  end.

(** [Series.apply(f)] for one of the bucketing functions: [f] is called
    on the Python integers of an int64 column and on the floats of a
    float64 column, and the labels make a column of strings; on a column
    of strings the comparison of [f] raises ([None]). *)
Definition Series_apply (f_int : Z -> string) (f_float : float -> string)
  (c : Column) : option Column :=
  match c with
  | IntCol v => Some (StrCol (map f_int v))
  | FloatCol v => Some (StrCol (map f_float v))
  | StrCol _ => None
  end.

(** The in-memory transformation of [df], statement by statement. *)
Definition enrich (df : Frame) : option Frame :=
  c <- getitem df "charges" ;;
  v <- Series_round2 c ;;
  let df := setitem df "charges" v in
  c <- getitem df "charges" ;;
  v <- Series_apply charges_band_int charges_band c ;;
  let df := setitem df "charges_band" v in
  c <- getitem df "bmi" ;;
  v <- Series_apply bmi_category_int bmi_category c ;;
  let df := setitem df "bmi_category" v in
  c <- getitem df "age" ;;
  v <- Series_apply age_group age_group_float c ;;
  let df := setitem df "age_group" v in
  c <- getitem df "age" ;;
  v <- Series_apply age_group_label age_group_label_float c ;;
  let df := setitem df "age_group_label" v in
  Some df.

(** The tables stored under each file name; [None] is a missing file. *)
Definition Files : Type := string -> option Frame.

Definition input_file : string := "Star_cleaned_insurance.csv".
Definition output_file : string := "powerbigroupeddata.csv".

(** [df.to_csv(path, index=False)]. *)
Definition to_csv (fs : Files) (path : string) (df : Frame) : Files :=
  fun p => if p =? path then Some df else fs p.

(** The whole run: read, enrich, write.  [None] is a run that stops on an
    exception before anything is written. *)
Definition main (fs : Files) : option Files :=
  df <- fs input_file ;;
  out <- enrich df ;;
  Some (to_csv fs output_file out).

(** The seven columns of the input and the four added ones. *)
Definition original_columns : list string :=
  ["age"; "sex"; "bmi"; "children"; "smoker"; "region"; "charges"].

Definition derived_columns : list string :=
  ["charges_band"; "bmi_category"; "age_group"; "age_group_label"].

(** The five assignments of the script, given the three columns they
    read. *)
Definition enriched (df : Frame) (ages : list Z) (bmis chargess : list float)
  : Frame :=
  setitem
    (setitem
       (setitem
          (setitem
             (setitem df "charges" (FloatCol (map round2 chargess)))
             "charges_band"
             (StrCol (map charges_band (map round2 chargess))))
          "bmi_category" (StrCol (map bmi_category bmis)))
       "age_group" (StrCol (map age_group ages)))
    "age_group_label" (StrCol (map age_group_label ages)).

(** ** Inputs used in the examples *)

Definition two_rows : Frame :=
  [ ("age", IntCol [19; 60]%Z);
    ("sex", StrCol ["female"; "male"]);
    ("bmi", FloatCol [27.9; 30]%float);
    ("children", IntCol [0; 2]%Z);
    ("smoker", StrCol ["yes"; "no"]);
    ("region", StrCol ["southwest"; "northeast"]);
    ("charges", FloatCol [16884.924; 4999.996]%float) ].

(** A table whose charges and bmi are whole numbers (int64 columns) and
    whose ages are floats. *)
Definition other_kinds : Frame :=
  [ ("age", FloatCol [19; 60.5]%float);
    ("bmi", IntCol [18; 30]%Z);
    ("charges", IntCol [4999; 5000]%Z) ].

(** A table without its age column. *)
Definition no_age_column : Frame :=
  [ ("bmi", FloatCol [27.9; 30]%float);
    ("charges", FloatCol [16884.924; 4999.996]%float) ].

Definition a_folder : Files :=
  fun p => if p =? input_file then Some two_rows else None.

End Bucketizer.

(* ===================================================================== *)
(** * Properties *)
(* ===================================================================== *)

Module F64Facts.

Import F64.
Local Open Scope Z_scope.

Ltac cmp_cases :=
  repeat match goal with
  | |- context [Z.compare ?a ?b] =>
      destruct (Z.compare_spec a b); subst
  | |- context [Pos.compare_cont Eq ?a ?b] =>
      change (Pos.compare_cont Eq a b) with (Pos.compare a b);
      destruct (Pos.compare_spec a b); subst
  end.

Lemma SFltb_rank (f g : spec_float) :
  f <> S754_nan -> g <> S754_nan ->
  SFltb f g = true <-> lex_lt (rank f) (rank g).
Proof.
  intros Hf Hg. unfold SFltb.
  destruct f as [sf|sf| |sf mf ef], g as [sg|sg| |sg mg eg];
    try congruence; clear Hf Hg;
    try destruct sf; try destruct sg; cbn [SFcompare rank lex_lt];
    cmp_cases; cbn [CompOpp];
    split; intros K; try discriminate; try reflexivity; try lia.
Qed.

Lemma SFleb_rank (f g : spec_float) :
  f <> S754_nan -> g <> S754_nan ->
  SFleb f g = true <-> lex_le (rank f) (rank g).
Proof.
  intros Hf Hg. unfold SFleb.
  destruct f as [sf|sf| |sf mf ef], g as [sg|sg| |sg mg eg];
    try congruence; clear Hf Hg;
    try destruct sf; try destruct sg; cbn [SFcompare rank lex_le];
    cmp_cases; cbn [CompOpp];
    split; intros K; try discriminate; try reflexivity; try lia.
Qed.

Lemma SFcompare_nan_r (f : spec_float) : SFcompare f S754_nan = None.
Proof. destruct f; reflexivity. Qed.

Lemma not_nan_Prim2SF (x : float) :
  is_nan x = false -> Prim2SF x <> S754_nan.
Proof.
  unfold is_nan. rewrite eqb_spec. unfold SFeqb. intros H E.
  rewrite E in H. discriminate.
Qed.

Lemma ltb_not_nan (x y : float) :
  (x <? y)%float = true -> is_nan x = false /\ is_nan y = false.
Proof.
  rewrite ltb_spec. unfold SFltb, is_nan. rewrite !eqb_spec. unfold SFeqb.
  destruct (Prim2SF x) as [sx|sx| |sx mx ex] eqn:Ex,
           (Prim2SF y) as [sy|sy| |sy my ey] eqn:Ey;
    cbn [SFcompare]; try discriminate; intros _; split; cbn;
    try destruct sx; try destruct sy; try reflexivity;
    rewrite ?Z.compare_refl; rewrite ?Pos.compare_cont_refl; reflexivity.
Qed.

Lemma leb_not_nan (x y : float) :
  (x <=? y)%float = true -> is_nan x = false /\ is_nan y = false.
Proof.
  rewrite leb_spec. unfold SFleb, is_nan. rewrite !eqb_spec. unfold SFeqb.
  destruct (Prim2SF x) as [sx|sx| |sx mx ex] eqn:Ex,
           (Prim2SF y) as [sy|sy| |sy my ey] eqn:Ey;
    cbn [SFcompare]; try discriminate; intros _; split; cbn;
    try destruct sx; try destruct sy; try reflexivity;
    rewrite ?Z.compare_refl; rewrite ?Pos.compare_cont_refl; reflexivity.
Qed.

(** Comparisons of numbers that are not NaN, read on ranks. *)
Lemma ltb_rank (x y : float) :
  is_nan x = false -> is_nan y = false ->
  (x <? y)%float = true <-> lex_lt (frank x) (frank y).
Proof.
  intros Hx Hy. rewrite ltb_spec.
  apply SFltb_rank; now apply not_nan_Prim2SF.
Qed.

Lemma leb_rank (x y : float) :
  is_nan x = false -> is_nan y = false ->
  (x <=? y)%float = true <-> lex_le (frank x) (frank y).
Proof.
  intros Hx Hy. rewrite leb_spec.
  apply SFleb_rank; now apply not_nan_Prim2SF.
Qed.

Lemma ltb_false_rank (x y : float) :
  is_nan x = false -> is_nan y = false ->
  (x <? y)%float = false <-> lex_le (frank y) (frank x).
Proof.
  intros Hx Hy.
  pose proof (ltb_rank x y Hx Hy) as H.
  destruct (x <? y)%float; unfold lex_lt, lex_le, frank in *;
    destruct (rank (Prim2SF x)) as [[a1 a2] a3];
    destruct (rank (Prim2SF y)) as [[b1 b2] b3]; split; intros K.
  - discriminate.
  - assert (Hlt : a1 < b1 \/ a1 = b1 /\ (a2 < b2 \/ a2 = b2 /\ a3 < b3))
      by (now apply H). lia.
  - destruct (Z_lt_le_dec a1 b1) as [L|L]; [exfalso|].
    + assert (true = false) by (symmetry; apply H; lia). discriminate.
    + destruct (Z.eq_dec a1 b1) as [E|E]; [|lia].
      destruct (Z_lt_le_dec a2 b2) as [L2|L2]; [exfalso|].
      * assert (false = true) by (apply H; lia). discriminate.
      * destruct (Z.eq_dec a2 b2) as [E2|E2]; [|lia].
        destruct (Z_lt_le_dec a3 b3) as [L3|L3]; [exfalso|lia].
        assert (false = true) by (apply H; lia). discriminate.
  - reflexivity.
Qed.

Lemma leb_false_rank (x y : float) :
  is_nan x = false -> is_nan y = false ->
  (x <=? y)%float = false <-> lex_lt (frank y) (frank x).
Proof.
  intros Hx Hy. split.
  - intros H. destruct (y <? x)%float eqn:E; [now apply ltb_rank in E|].
    apply ltb_false_rank in E; trivial. apply leb_rank in E; trivial.
    congruence.
  - intros H. apply ltb_rank in H; trivial.
    destruct (x <=? y)%float eqn:E; [|reflexivity].
    apply leb_rank in E; trivial. apply ltb_rank in H; trivial.
    unfold frank, lex_lt, lex_le in *.
    destruct (rank (Prim2SF x)) as [[? ?] ?].
    destruct (rank (Prim2SF y)) as [[? ?] ?]. lia.
Qed.

Ltac rank_lia :=
  unfold frank, lex_lt, lex_le in *;
  repeat match goal with
  | H : context [rank ?s] |- _ => destruct (rank s) as [[? ?] ?]
  | |- context [rank ?s] => destruct (rank s) as [[? ?] ?]
  end;
  lia.

(** The usual laws of a strict order and its large order, for IEEE
    comparisons. *)
Lemma ltb_asym (x y : float) :
  (x <? y)%float = true -> (y <? x)%float = false.
Proof.
  intros H. destruct (ltb_not_nan x y H) as [Hx Hy].
  apply ltb_false_rank; trivial. apply ltb_rank in H; trivial. rank_lia.
Qed.

Lemma ltb_leb (x y : float) :
  (x <? y)%float = true -> (x <=? y)%float = true.
Proof.
  intros H. destruct (ltb_not_nan x y H) as [Hx Hy].
  apply leb_rank; trivial. apply ltb_rank in H; trivial. rank_lia.
Qed.

Lemma leb_not_ltb (x y : float) :
  (x <=? y)%float = true -> (y <? x)%float = false.
Proof.
  intros H. destruct (leb_not_nan x y H) as [Hx Hy].
  apply ltb_false_rank; trivial. apply leb_rank in H; trivial.
Qed.

Lemma not_ltb_leb (x y : float) :
  is_nan x = false -> is_nan y = false ->
  (x <? y)%float = false -> (y <=? x)%float = true.
Proof.
  intros Hx Hy H. apply leb_rank; trivial.
  apply ltb_false_rank in H; trivial.
Qed.

Lemma ltb_irrefl (x : float) : (x <? x)%float = false.
Proof.
  destruct (x <? x)%float eqn:E; [|reflexivity].
  now rewrite (ltb_asym x x E) in E.
Qed.

Lemma ltb_trans (x y z : float) :
  (x <? y)%float = true -> (y <? z)%float = true -> (x <? z)%float = true.
Proof.
  intros H1 H2. destruct (ltb_not_nan x y H1) as [Hx Hy].
  destruct (ltb_not_nan y z H2) as [_ Hz].
  apply ltb_rank in H1; trivial. apply ltb_rank in H2; trivial.
  apply ltb_rank; trivial. rank_lia.
Qed.

Lemma ltb_leb_trans (x y z : float) :
  (x <? y)%float = true -> (y <=? z)%float = true -> (x <? z)%float = true.
Proof.
  intros H1 H2. destruct (ltb_not_nan x y H1) as [Hx Hy].
  destruct (leb_not_nan y z H2) as [_ Hz].
  apply ltb_rank in H1; trivial. apply leb_rank in H2; trivial.
  apply ltb_rank; trivial. rank_lia.
Qed.

Lemma leb_ltb_trans (x y z : float) :
  (x <=? y)%float = true -> (y <? z)%float = true -> (x <? z)%float = true.
Proof.
  intros H1 H2. destruct (leb_not_nan x y H1) as [Hx Hy].
  destruct (ltb_not_nan y z H2) as [_ Hz].
  apply leb_rank in H1; trivial. apply ltb_rank in H2; trivial.
  apply ltb_rank; trivial. rank_lia.
Qed.





(** Zero divided by a positive number is zero. *)
Lemma zero_div_pos (x : float) :
  (0 <? x)%float = true -> (0 / x)%float = 0%float.
Proof.
  intros H. apply Prim2SF_inj. rewrite div_spec. rewrite ltb_spec in H.
  assert (E0 : Prim2SF 0 = S754_zero false) by reflexivity.
  rewrite E0 in *. unfold SFltb in H.
  destruct (Prim2SF x) as [s|s| |s m e]; cbn in H; try discriminate;
    destruct s; try discriminate; reflexivity.
Qed.


(** Further laws, on numbers and on NaN. *)
Lemma leb_refl (x : float) : is_nan x = false -> (x <=? x)%float = true.
Proof. intros Hx. apply not_ltb_leb; trivial. apply ltb_irrefl. Qed.

Lemma leb_trans (x y z : float) :
  (x <=? y)%float = true -> (y <=? z)%float = true -> (x <=? z)%float = true.
Proof.
  intros H1 H2. destruct (leb_not_nan x y H1) as [Hx Hy].
  destruct (leb_not_nan y z H2) as [_ Hz].
  apply leb_rank in H1; trivial. apply leb_rank in H2; trivial.
  apply leb_rank; trivial. rank_lia.
Qed.

Lemma ltb_nan_l (x y : float) : is_nan x = true -> (x <? y)%float = false.
Proof.
  intros Hx. destruct (x <? y)%float eqn:E; [|reflexivity].
  destruct (ltb_not_nan x y E). congruence.
Qed.

Lemma ltb_nan_r (x y : float) : is_nan y = true -> (x <? y)%float = false.
Proof.
  intros Hy. destruct (x <? y)%float eqn:E; [|reflexivity].
  destruct (ltb_not_nan x y E). congruence.
Qed.

Lemma leb_nan_l (x y : float) : is_nan x = true -> (x <=? y)%float = false.
Proof.
  intros Hx. destruct (x <=? y)%float eqn:E; [|reflexivity].
  destruct (leb_not_nan x y E). congruence.
Qed.

Lemma leb_nan_r (x y : float) : is_nan y = true -> (x <=? y)%float = false.
Proof.
  intros Hy. destruct (x <=? y)%float eqn:E; [|reflexivity].
  destruct (leb_not_nan x y E). congruence.
Qed.



End F64Facts.

(** ** The dashboard *)

Module DashboardProps.

Import F64 F64Facts Dashboard.
Local Open Scope string_scope.
Local Open Scope list_scope.

(** ** Facts on selections *)

Lemma filter_filter {A : Type} (f g : A -> bool) (l : list A) :
  filter g (filter f l) = filter (fun x => f x && g x) l.
Proof.
  induction l as [|x t IH]; simpl; [reflexivity|].
  destruct (f x); simpl; [destruct (g x)|]; now rewrite IH.
Qed.

Lemma filter_idem {A : Type} (f : A -> bool) (l : list A) :
  filter f (filter f l) = filter f l.
Proof.
  rewrite filter_filter. apply filter_ext. intros x. now destruct (f x).
Qed.

(** The three successive selections amount to one selection by [passes]. *)
Lemma filtered_df_passes (df : DataFrame) (c : Sidebar) :
  filtered_df df c = filter (passes c) df.
Proof.
  unfold filtered_df, passes.
  destruct (smoker_filter c =? "All"), (region_filter c =? "All"); simpl;
    rewrite ?filter_filter; apply filter_ext; intros r; cbn [orb];
    rewrite ?andb_true_r, ?andb_assoc; reflexivity.
Qed.

Lemma kept_positions_lower {A : Type} (f : A -> bool) (l : list A) (i : nat) :
  Forall (fun j => (i <= j)%nat) (kept_positions f l i).
Proof.
  revert i. induction l as [|x t IH]; intros i; simpl; [constructor|].
  assert (Ht : Forall (fun j => (i <= j)%nat) (kept_positions f t (S i))).
  { eapply Forall_impl; [|apply IH]. simpl. intros j Hj. lia. }
  destruct (f x); [constructor; [lia|]|]; exact Ht.
Qed.

Lemma kept_positions_increasing {A : Type} (f : A -> bool) (l : list A)
  (i : nat) : StronglySorted Nat.lt (kept_positions f l i).
Proof.
  revert i. induction l as [|x t IH]; intros i; simpl; [constructor|].
  destruct (f x); [|apply IH].
  constructor; [apply IH|].
  eapply Forall_impl; [|apply kept_positions_lower]. simpl. intros j Hj.
  unfold Nat.lt. lia.
Qed.

Lemma kept_positions_rows {A : Type} (f : A -> bool) (l : list A) (i : nat) :
  map (fun j => nth_error l (j - i)) (kept_positions f l i)
  = map Some (filter f l).
Proof.
  revert i. induction l as [|x t IH]; intros i; simpl; [reflexivity|].
  assert (Ht : map (fun j => nth_error (x :: t) (j - i))
                 (kept_positions f t (S i)) = map Some (filter f t)).
  { rewrite <- (IH (S i)). apply map_ext_in. intros j Hj.
    pose proof (kept_positions_lower f t (S i)) as Hl.
    rewrite Forall_forall in Hl. specialize (Hl j Hj).
    replace (j - i)%nat with (S (j - S i)) by lia. reflexivity. }
  destruct (f x); simpl; [|exact Ht].
  rewrite Nat.sub_diag. simpl. now rewrite Ht.
Qed.

(** ** Properties of the filter *)

(** C1.  A row is in the filtered frame exactly when it is a row of the
    data, its age lies in the closed age range, its bmi lies in the closed
    bmi range, the smoker selection is ["All"] or equals the row's smoker
    field, and the region selection is ["All"] or equals the row's region
    field. *)
Theorem filtered_df_membership (df : DataFrame) (c : Sidebar) (r : Row) :
  In r (filtered_df df c) <->
  In r df /\
  (fst (age_range c) <= age r <= snd (age_range c))%Z /\
  ((fst (bmi_range c) <=? bmi r)%float = true /\
   (bmi r <=? snd (bmi_range c))%float = true) /\
  (smoker_filter c = "All" \/ smoker r = smoker_filter c) /\
  (region_filter c = "All" \/ region r = region_filter c).
Proof.
  rewrite filtered_df_passes, filter_In. unfold passes, range_mask, geb.
  rewrite !andb_true_iff, !orb_true_iff, !String.eqb_eq.
  rewrite Z.geb_le, Z.leb_le. tauto.
Qed.

(** C9.  Filtering is idempotent: filtering the filtered frame again with
    the same selections changes nothing. *)
Theorem filtered_df_idempotent (df : DataFrame) (c : Sidebar) :
  filtered_df (filtered_df df c) c = filtered_df df c.
Proof.
  rewrite !filtered_df_passes. apply filter_idem.
Qed.

(** C10.  The filtered frame is an order-preserving subsequence of the
    data: its rows are the rows of the data at the positions of
    [filtered_index], which are valid positions listed in strictly
    increasing order; so every row of the result is a row of the data, no
    position is taken twice, and the relative order is that of the data. *)
Theorem filtered_df_subsequence (df : DataFrame) (c : Sidebar) :
  StronglySorted Nat.lt (filtered_index df c) /\
  Forall (fun j => (j < List.length df)%nat) (filtered_index df c) /\
  map (nth_error df) (filtered_index df c) = map Some (filtered_df df c) /\
  (forall r, In r (filtered_df df c) -> In r df) /\
  (List.length (filtered_df df c) <= List.length df)%nat.
Proof.
  assert (Hrows : map (nth_error df) (filtered_index df c)
                  = map Some (filtered_df df c)).
  { rewrite filtered_df_passes. unfold filtered_index.
    rewrite <- (kept_positions_rows (passes c) df 0).
    apply map_ext. intros j. now rewrite Nat.sub_0_r. }
  split; [apply kept_positions_increasing|].
  split.
  - rewrite Forall_forall. intros j Hj.
    apply (in_map (nth_error df)) in Hj. rewrite Hrows in Hj.
    apply in_map_iff in Hj. destruct Hj as [r [Hr _]].
    apply nth_error_Some. congruence.
  - split; [exact Hrows|]. rewrite filtered_df_passes. split.
    + intros r Hr. apply filter_In in Hr. tauto.
    + apply filter_length_le.
Qed.

(** ** Properties of the loader *)

Definition absent (read_csv : FileSystem) (file : string) : Prop :=
  read_csv file = FileNotFoundError.

Lemma draws_length {St A : Type} (sample : St -> A * St) (n : nat) (st : St) :
  List.length (fst (draws sample n st)) = n.
Proof.
  revert st. induction n as [|n IH]; intros st; simpl; [reflexivity|].
  destruct (sample st) as [x st1]. specialize (IH st1).
  destruct (draws sample n st1) as [xs st2]. simpl in *. now rewrite IH.
Qed.

Lemma frame_of_columns_length (n : nat) :
  forall ages sexes bmis kids smokers regions costs,
    List.length ages = n -> List.length sexes = n -> List.length bmis = n ->
    List.length kids = n -> List.length smokers = n ->
    List.length regions = n -> List.length costs = n ->
    List.length
      (frame_of_columns ages sexes bmis kids smokers regions costs)
    = n.
Proof.
  induction n as [|n IH];
    intros [|a ages] [|s sexes] [|b bmis] [|k kids] [|m smokers]
           [|r regions] [|c costs]; simpl; try discriminate;
    intros H1 H2 H3 H4 H5 H6 H7; [reflexivity|].
  f_equal. apply IH; congruence.
Qed.

Section Loader.

Context {numpy : NumPy}.

Lemma create_sample_data_length : List.length create_sample_data = 1000%nat.
Proof.
  unfold create_sample_data.
  repeat match goal with
  | |- context [draws ?f ?n ?st] =>
      let H := fresh "L" in
      pose proof (draws_length f n st) as H;
      destruct (draws f n st) as [? ?]; simpl fst in H
  end.
  apply frame_of_columns_length;
    rewrite ?length_map, ?length_combine, ?length_map, ?length_combine,
      ?length_map;
    repeat match goal with H : List.length _ = n_samples |- _ =>
      rewrite H; clear H end;
    reflexivity.
Qed.

Lemma try_files_outcome (read_csv : FileSystem) (files : list string) :
  match try_files read_csv files with
  | Returned file df =>
      exists pre post, files = pre ++ file :: post /\
        Forall (absent read_csv) pre /\ read_csv file = Parsed df
  | Exhausted => Forall (absent read_csv) files
  | Raised e =>
      exists pre file post, files = pre ++ file :: post /\
        Forall (absent read_csv) pre /\ read_csv file = OtherException e
  end.
Proof.
  induction files as [|f rest IH]; simpl; [constructor|].
  destruct (read_csv f) eqn:E.
  - exists [], rest. auto.
  - destruct (try_files read_csv rest) as [file df| |e].
    + destruct IH as (pre & post & -> & Hpre & Hf).
      exists (f :: pre), post. auto.
    + constructor; assumption.
    + destruct IH as (pre & file & post & -> & Hpre & Hf).
      exists (f :: pre), file, post. auto.
  - exists [], f, rest. auto.
Qed.

(** C7, as the code has it.  The loader reads the candidates in order and
    skips those that are not found.  It returns the table of the first
    candidate that is found when that one parses.  It returns the
    generated table when no candidate is found, and also as soon as a
    candidate that is found fails to parse (or fails in any other way),
    without trying the later candidates.  The generated table has 1000
    rows and depends on nothing but the generator seeded with 42; in every
    case a table is returned. *)
Theorem load_data_outcome (read_csv : FileSystem) (files : list string) :
  ((exists pre file post df,
      files = pre ++ file :: post /\ Forall (absent read_csv) pre /\
      read_csv file = Parsed df /\
      load_data_from read_csv files = (df, st_success file))
   \/
   (Forall (absent read_csv) files /\
    load_data_from read_csv files = (create_sample_data, st_warning))
   \/
   (exists pre file post e,
      files = pre ++ file :: post /\ Forall (absent read_csv) pre /\
      read_csv file = OtherException e /\
      load_data_from read_csv files = (create_sample_data, st_error e)))
  /\ List.length create_sample_data = 1000%nat.
Proof.
  split; [|apply create_sample_data_length].
  unfold load_data_from. pose proof (try_files_outcome read_csv files) as H.
  destruct (try_files read_csv files) as [file df| |e].
  - left. destruct H as (pre & post & Hf & Hpre & Hr).
    exists pre, file, post, df. auto.
  - right; left. auto.
  - right; right. destruct H as (pre & file & post & Hf & Hpre & Hr).
    exists pre, file, post, e. auto.
Qed.

End Loader.

(** C7 as stated fails: the second candidate is a table that parses, yet
    the loader, stopped by the unreadable first candidate, returns the
    generated table of 1000 rows and not that one-row table. *)
Lemma load_data_skips_good_candidate :
  second_candidate_good "insurance_dashboard_ready.csv" = Parsed one_row_table
  /\ load_data (numpy := small_numpy) second_candidate_good
     = (create_sample_data (numpy := small_numpy), st_error "ParserError")
  /\ List.length (fst (load_data (numpy := small_numpy) second_candidate_good))
     = 1000%nat
  /\ List.length one_row_table = 1%nat.
Proof.
  split; [reflexivity|]. split; [reflexivity|].
  split; [|reflexivity].
  change (load_data second_candidate_good)
    with (create_sample_data (numpy := small_numpy), st_error "ParserError").
  apply create_sample_data_length.
Qed.

(** The loader does reach a later candidate when the earlier ones are
    not found. *)
Example load_data_last_candidate :
  load_data (numpy := small_numpy) last_candidate_only
  = (one_row_table, st_success "insurance.csv").
Proof. reflexivity. Qed.

(** ** Properties of the key metrics *)

Section Metrics.

Context {numpy : NumPy}.

Lemma length_zero_nil {A : Type} (l : list A) :
  (0 <? List.length l)%nat = false -> l = [].
Proof. destruct l; [reflexivity|discriminate]. Qed.

(** C2, as the code has it.  With [N] the mean charges of the smokers (0
    when there is none) and [D] the mean charges of the non-smokers (1
    when there is none): the multiplier is 0 on an empty frame; on a
    frame with rows it is [N / D] when [D > 0] and 0 when [D > 0] does not
    hold; with no non-smoker row it is [N / 1]; and with no smoker row (in
    particular on an all-non-smoker frame) it is 0. *)
Theorem smoker_multiplier_guarded (filtered : DataFrame) :
  let yes := charges_where "yes" filtered in
  let no := charges_where "no" filtered in
  let N := match yes with [] => 0%float | _ => Series_mean yes end in
  let D := match no with [] => 1%float | _ => Series_mean no end in
  (filtered = [] -> smoker_multiplier filtered = 0%float) /\
  (filtered <> [] -> (0 <? D)%float = true ->
   smoker_multiplier filtered = (N / D)%float) /\
  (filtered <> [] -> (0 <? D)%float = false ->
   smoker_multiplier filtered = 0%float) /\
  (filtered <> [] -> no = [] ->
   smoker_multiplier filtered = (N / 1)%float) /\
  (yes = [] -> smoker_multiplier filtered = 0%float).
Proof.
  intros yes no N D.
  assert (Hcode : filtered <> [] ->
            smoker_multiplier filtered
            = if (0 <? D)%float then (N / D)%float else 0%float).
  { intros Hne. unfold smoker_multiplier.
    destruct filtered as [|r t]; [congruence|]. cbn [List.length Nat.ltb Nat.leb].
    fold yes no. subst N D.
    destruct yes as [|y ys], no as [|n ns]; reflexivity. }
  split; [intros ->; reflexivity|].
  split; [intros Hne HD; now rewrite Hcode, HD|].
  split; [intros Hne HD; now rewrite Hcode, HD|].
  split.
  - intros Hne Hno. rewrite Hcode by assumption. subst D. rewrite Hno.
    reflexivity.
  - intros Hyes. destruct filtered as [|r t] eqn:Ef; [reflexivity|].
    rewrite Hcode by discriminate. subst N. rewrite Hyes.
    destruct (0 <? D)%float eqn:HD; [|reflexivity].
    now apply zero_div_pos.
Qed.

End Metrics.

(** The theorem at work on three non-smokers: no smoker row, so the
    multiplier is 0 although the mean charges are 4000. *)
Lemma smoker_multiplier_guarded_witness :
  charges_where "yes" non_smokers = []
  /\ Series_mean (numpy := small_numpy) (charges_where "no" non_smokers)
     = 4000%float
  /\ smoker_multiplier (numpy := small_numpy) non_smokers = 0%float.
Proof.
  split; [reflexivity|]. split; [reflexivity|].
  apply (smoker_multiplier_guarded (numpy := small_numpy) non_smokers).
  reflexivity.
Defined.

(** C2 as stated fails where the non-smokers' mean charges are not
    positive.  With a non-smoker charged nothing the quotient of the two
    means is [100 / 0], an infinity, and with a refunded non-smoker it is
    [100 / -50 = -2]; the multiplier is 0 both times. *)
Lemma smoker_multiplier_is_not_the_ratio :
  (smoker_multiplier (numpy := small_numpy) free_non_smoker = 0%float
   /\ (Series_mean (numpy := small_numpy) (charges_where "yes" free_non_smoker)
       / Series_mean (numpy := small_numpy) (charges_where "no" free_non_smoker)
       = infinity)%float)
  /\
  (smoker_multiplier (numpy := small_numpy) refunded_non_smoker = 0%float
   /\ (Series_mean (numpy := small_numpy)
         (charges_where "yes" refunded_non_smoker)
       / Series_mean (numpy := small_numpy)
           (charges_where "no" refunded_non_smoker)
       = -2)%float).
Proof. repeat split; reflexivity. Qed.

(** ** Properties of the age groups *)

(** The bins of [pd.cut] as called by the dashboard: each bin is closed on
    its upper edge, and the first one also holds its lower edge 17. *)
Lemma age_group_intervals (r : Row) :
  age_group r =
    if ((17 <=? age r) && (age r <=? 30))%Z then Some "18-29"
    else if ((30 <? age r) && (age r <=? 40))%Z then Some "30-39"
    else if ((40 <? age r) && (age r <=? 50))%Z then Some "40-49"
    else if ((50 <? age r) && (age r <=? 65))%Z then Some "50+"
    else None.
Proof.
  unfold age_group, pd_cut, age_bins, age_labels.
  cbn [searchsorted_left andb List.length].
  destruct (Z.eqb_spec (age r) 17) as [E|E].
  - rewrite E. reflexivity.
  - repeat match goal with
    | |- context [(?a <? ?b)%Z] => destruct (Z.ltb_spec a b)
    | |- context [(?a <=? ?b)%Z] => destruct (Z.leb_spec a b)
    end; cbn; try reflexivity; lia.
Qed.

(** A bar is shown only for a group that has a row, and only the four
    labels are shown. *)
Lemma age_group_avg_observed {numpy : NumPy} (filtered : DataFrame)
  (lab : string) (m : float) :
  In (lab, m) (age_group_avg filtered) ->
  In lab age_labels /\
  (exists r, In r filtered /\ age_group r = Some lab) /\
  m = Series_mean
        (map charges (filter (fun r => has_label lab (age_group r)) filtered)).
Proof.
  unfold age_group_avg. rewrite in_flat_map. intros (l & Hl & Hin).
  destruct (filter (fun r => has_label l (age_group r)) filtered)
    as [|r g] eqn:Eg; cbn in Hin; [destruct Hin|].
  destruct Hin as [[= <- <-]|[]]. split; [exact Hl|]. split.
  - exists r. assert (Hr : In r (r :: g)) by (left; reflexivity).
    rewrite <- Eg in Hr. apply filter_In in Hr. destruct Hr as [Hr Hlab].
    split; [exact Hr|]. unfold has_label in Hlab.
    destruct (age_group r) as [l'|]; [|discriminate].
    apply String.eqb_eq in Hlab. now subst.
  - now rewrite Eg.
Qed.

(** C3 on the boundary ages (the claim fails on the code here): a row
    aged 30 is put in the group labelled ["18-29"], a row aged 40 in
    ["30-39"], a row aged 50 in ["40-49"] and a row aged 17 in ["18-29"];
    the chart of a frame with one row aged 30 shows one bar, ["18-29"]. *)
Theorem age_group_boundaries :
  age_group (a_row 30 "no" 100) = Some "18-29"
  /\ age_group (a_row 40 "no" 100) = Some "30-39"
  /\ age_group (a_row 50 "no" 100) = Some "40-49"
  /\ age_group (a_row 17 "no" 100) = Some "18-29"
  /\ age_group_avg (numpy := small_numpy) [a_row 30 "no" 100]
     = [("18-29", 100%float)].
Proof. repeat split; reflexivity. Qed.

(** ** Properties of the premium calculator *)



(** What the hypotheses leave out.  An integer beyond the range of
    binary64 cannot be converted in [calc_age - 39.2] or in the sum, and
    Python raises [OverflowError]; a smoker string other than ["no"],
    whatever it is, is charged the smokers' base premium. *)
Example calculate_premium_outside_types :
  calculate_premium (2 ^ 1024) 25 "no" "southwest" 0 = None
  /\ calculate_premium 35 25 "no" "southwest" (2 ^ 1024) = None
  /\ exists q, calculate_premium 35 25 "Yes" "southwest" 0 = Some q
                /\ base_premium q = 32050%Z.
Proof.
  split; [reflexivity|]. split; [reflexivity|].
  eexists. split; reflexivity.
Qed.

(** C5, as the code computes it.  For age 35, bmi 25, a non-smoker in the
    southwest without children the quote has base 8434, no bmi or children
    adjustment and multiplier 1; in binary64 the age adjustment
    [(35 - 39.2) * 250] is -1050.0000000000007 and the total is
    7383.999999999999, which is below 7384 by less than [1e-11] and is
    not lifted by the floor. *)
Theorem calculate_premium_example :
  calculate_premium 35 25 "no" "southwest" 0
  = Some (mkQuote 8434 (-1050.0000000000007) 0 0 1 7383.999999999999)
  /\ (abs (7383.999999999999 - 7384) <? 1e-11)%float = true
  /\ (abs (-1050.0000000000007 - -1050) <? 1e-11)%float = true
  /\ py_max 1000 7383.999999999999 = 7383.999999999999%float.
Proof. repeat split; reflexivity. Qed.

(** C5 as stated fails: the total the code computes is not 7384 and the
    age adjustment is not -1050; each is strictly below. *)
Lemma calculate_premium_example_inexact :
  exists q,
    calculate_premium 35 25 "no" "southwest" 0 = Some q
    /\ (total_premium q =? 7384)%float = false
    /\ (total_premium q <? 7384)%float = true
    /\ (age_adjustment q =? -1050)%float = false
    /\ (age_adjustment q <? -1050)%float = true.
Proof. eexists. split; [reflexivity|]. repeat split; reflexivity. Qed.

(** ** Further properties of the filter *)

Lemma filter_all {A : Type} (f : A -> bool) (l : list A) :
  (forall x, In x l -> f x = true) -> filter f l = l.
Proof.
  induction l as [|x t IH]; intros H; simpl; [reflexivity|].
  rewrite (H x (or_introl eq_refl)). f_equal. apply IH.
  intros y Hy. apply H. now right.
Qed.

(** A row whose bmi is missing passes no range test. *)
Lemma passes_nan_bmi (c : Sidebar) (r : Row) :
  is_nan (bmi r) = true -> passes c r = false.
Proof.
  intros Hn. unfold passes, range_mask.
  rewrite (leb_nan_l (bmi r) (snd (bmi_range c)) Hn).
  now rewrite !andb_false_r.
Qed.

(** Two settings of the sidebar can be applied in either order: both
    orders keep the rows that pass the two settings. *)
Theorem filtered_df_commute (df : DataFrame) (c1 c2 : Sidebar) :
  filtered_df (filtered_df df c1) c2 = filtered_df (filtered_df df c2) c1
  /\ filtered_df (filtered_df df c1) c2
     = filter (fun r => passes c1 r && passes c2 r) df.
Proof.
  rewrite !filtered_df_passes, !filter_filter. split; [|reflexivity].
  apply filter_ext. intros r. apply andb_comm.
Qed.

(** Widening the age range or the bmi range, with the same smoker and
    region selections, loses no row: the narrow result is the narrow
    filter applied to the wide result, it has at most as many rows, and
    each of its rows is in the wide result. *)
Theorem filtered_df_widen (df : DataFrame) (c c' : Sidebar) :
  smoker_filter c' = smoker_filter c ->
  region_filter c' = region_filter c ->
  (fst (age_range c') <= fst (age_range c))%Z ->
  (snd (age_range c) <= snd (age_range c'))%Z ->
  (fst (bmi_range c') <=? fst (bmi_range c))%float = true ->
  (snd (bmi_range c) <=? snd (bmi_range c'))%float = true ->
  filtered_df (filtered_df df c') c = filtered_df df c
  /\ (List.length (filtered_df df c) <= List.length (filtered_df df c'))%nat
  /\ (forall r, In r (filtered_df df c) -> In r (filtered_df df c')).
Proof.
  intros Hs Hr Hlo Hhi Hblo Hbhi.
  assert (Himp : forall r, passes c r = true -> passes c' r = true).
  { intros r. unfold passes, range_mask, geb. rewrite Hs, Hr.
    rewrite !andb_true_iff, !Z.geb_le, !Z.leb_le.
    intros [[[[[H1 H2] H3] H4] H5] H6].
    repeat split; trivial; try lia.
    - eapply leb_trans; eassumption.
    - eapply leb_trans; eassumption. }
  assert (Heq : filtered_df (filtered_df df c') c = filtered_df df c).
  { rewrite !filtered_df_passes, filter_filter. apply filter_ext.
    intros r. destruct (passes c r) eqn:E.
    - now rewrite (Himp r E).
    - apply andb_false_r. }
  split; [exact Heq|]. split.
  - rewrite <- Heq at 1. rewrite (filtered_df_passes (filtered_df df c') c).
    apply filter_length_le.
  - intros r. rewrite !filtered_df_passes, !filter_In. intros [Hin Hp].
    split; [exact Hin|now apply Himp].
Qed.

(** The theorem at work: among three rows the narrow selection keeps
    none and the wide one keeps two. *)
Lemma filtered_df_widen_witness :
  (List.length (filtered_df three_rows narrow_selection)
   <= List.length (filtered_df three_rows wide_selection))%nat
  /\ List.length (filtered_df three_rows wide_selection) = 2%nat.
Proof.
  split; [|reflexivity].
  apply (filtered_df_widen three_rows narrow_selection wide_selection);
    first [reflexivity | cbn; lia].
Defined.

(** Rows whose bmi is missing (NaN) are never shown, whatever the
    selections: filtering gives the same frame as filtering the rows that
    have a bmi, and every row of the result has one. *)
Theorem filtered_df_drops_missing_bmi (df : DataFrame) (c : Sidebar) :
  filtered_df df c
  = filtered_df (filter (fun r => negb (is_nan (bmi r))) df) c
  /\ Forall (fun r => is_nan (bmi r) = false) (filtered_df df c).
Proof.
  rewrite !filtered_df_passes, filter_filter. split.
  - apply filter_ext. intros r. destruct (is_nan (bmi r)) eqn:E;
      [now apply passes_nan_bmi|reflexivity].
  - rewrite Forall_forall. intros r Hr. apply filter_In in Hr.
    destruct Hr as [_ Hp]. destruct (is_nan (bmi r)) eqn:E; [|reflexivity].
    now rewrite (passes_nan_bmi c r E) in Hp.
Qed.

Lemma filter_length_all {A : Type} (f : A -> bool) (l : list A) :
  List.length (filter f l) = List.length l -> filter f l = l.
Proof.
  induction l as [|x t IH]; simpl; [reflexivity|].
  destruct (f x); simpl; intros H.
  - f_equal. apply IH. lia.
  - pose proof (filter_length_le f t). lia.
Qed.

(** The change shown under the number of records is never positive, and
    it is 0 exactly when the selections remove no row. *)
Theorem records_delta_nonpositive (df : DataFrame) (c : Sidebar) :
  (records_delta (filtered_df df c) df <= 0)%Z
  /\ (records_delta (filtered_df df c) df = 0%Z <-> filtered_df df c = df).
Proof.
  unfold records_delta. rewrite filtered_df_passes.
  pose proof (filter_length_le (passes c) df) as Hle. split; [lia|].
  split.
  - intros H. apply filter_length_all. lia.
  - intros ->. lia.
Qed.

(** ** The full ranges of the sliders *)



Lemma fold_min_float (l : list float) (m : float) :
  is_nan m = false -> (forall y, In y l -> is_nan y = false) ->
  let r := fold_left (fun m y => if (y <? m)%float then y else m) l m in
  is_nan r = false /\ (r <=? m)%float = true
  /\ (r = m \/ In r l)
  /\ (forall y, In y l -> (r <=? y)%float = true).
Proof.
  revert m. induction l as [|x t IH]; intros m Hm Hl; simpl.
  - repeat split; auto using leb_refl; tauto.
  - assert (Hx : is_nan x = false) by (apply Hl; now left).
    set (m' := if (x <? m)%float then x else m).
    assert (Hm' : is_nan m' = false) by (unfold m'; now destruct (x <? m)%float).
    assert (Hm'm : (m' <=? m)%float = true).
    { unfold m'. destruct (x <? m)%float eqn:E;
        [now apply ltb_leb|now apply leb_refl]. }
    assert (Hm'x : (m' <=? x)%float = true).
    { unfold m'. destruct (x <? m)%float eqn:E;
        [now apply leb_refl|now apply not_ltb_leb]. }
    destruct (IH m' Hm' (fun y Hy => Hl y (or_intror Hy)))
      as (H1 & H2 & H3 & H4).
    split; [exact H1|]. split; [eapply leb_trans; eassumption|]. split.
    + destruct H3 as [H3|H3]; [|now right; right].
      rewrite H3. unfold m'. destruct (x <? m)%float; [right; now left|now left].
    + intros y [<-|Hy]; [eapply leb_trans; eassumption|now apply H4].
Qed.

Lemma fold_max_float (l : list float) (m : float) :
  is_nan m = false -> (forall y, In y l -> is_nan y = false) ->
  let r := fold_left (fun m y => if (m <? y)%float then y else m) l m in
  is_nan r = false /\ (m <=? r)%float = true
  /\ (r = m \/ In r l)
  /\ (forall y, In y l -> (y <=? r)%float = true).
Proof.
  revert m. induction l as [|x t IH]; intros m Hm Hl; simpl.
  - repeat split; auto using leb_refl; tauto.
  - assert (Hx : is_nan x = false) by (apply Hl; now left).
    set (m' := if (m <? x)%float then x else m).
    assert (Hm' : is_nan m' = false) by (unfold m'; now destruct (m <? x)%float).
    assert (Hm'm : (m <=? m')%float = true).
    { unfold m'. destruct (m <? x)%float eqn:E;
        [now apply ltb_leb|now apply leb_refl]. }
    assert (Hm'x : (x <=? m')%float = true).
    { unfold m'. destruct (m <? x)%float eqn:E;
        [now apply leb_refl|now apply not_ltb_leb]. }
    destruct (IH m' Hm' (fun y Hy => Hl y (or_intror Hy)))
      as (H1 & H2 & H3 & H4).
    split; [exact H1|]. split; [eapply leb_trans; eassumption|]. split.
    + destruct H3 as [H3|H3]; [|now right; right].
      rewrite H3. unfold m'. destruct (m <? x)%float; [right; now left|now left].
    + intros y [<-|Hy]; [eapply leb_trans; eassumption|now apply H4].
Qed.

(** The minimum and the maximum of a float column bound every value that
    is present, and are values of the column. *)
Lemma Series_min_max_bounds (s : list float) (x : float) :
  In x s -> is_nan x = false ->
  (Series_min s <=? x)%float = true /\ (x <=? Series_max s)%float = true
  /\ In (Series_min s) s /\ In (Series_max s) s
  /\ is_nan (Series_max s) = false.
Proof.
  intros Hin Hx. unfold Series_min, Series_max.
  assert (Hf : In x (filter (fun x => negb (is_nan x)) s)).
  { apply filter_In. split; [exact Hin|now rewrite Hx]. }
  assert (Hsub : forall y, In y (filter (fun x => negb (is_nan x)) s) ->
                   In y s /\ is_nan y = false).
  { intros y Hy. apply filter_In in Hy. destruct Hy as [Hy Hn].
    split; [exact Hy|]. now destruct (is_nan y). }
  destruct (filter (fun x => negb (is_nan x)) s) as [|h t]; [destruct Hf|].
  assert (Hh : is_nan h = false) by (apply Hsub; now left).
  assert (Ht : forall y, In y t -> is_nan y = false)
    by (intros y Hy; apply Hsub; now right).
  destruct (fold_min_float t h Hh Ht) as (_ & A2 & A3 & A4).
  destruct (fold_max_float t h Hh Ht) as (B1 & B2 & B3 & B4).
  cbv zeta in A2, A3, A4, B1, B2, B3, B4.
  repeat split.
  - destruct Hf as [<-|Hf]; [exact A2|now apply A4].
  - destruct Hf as [<-|Hf]; [exact B2|now apply B4].
  - apply Hsub. destruct A3 as [->|A3]; [now left|now right].
  - apply Hsub. destruct B3 as [->|B3]; [now left|now right].
  - exact B1.
Qed.



(** ** Further properties of the key metrics *)

Lemma filter_none {A : Type} (f : A -> bool) (l : list A) :
  (forall x, In x l -> f x = false) -> filter f l = [].
Proof.
  induction l as [|x t IH]; intros H; simpl; [reflexivity|].
  rewrite (H x (or_introl eq_refl)). apply IH.
  intros y Hy. apply H. now right.
Qed.

(** The highest charge shown is the charge of a row of the filtered
    frame; it is at least every charge that is present and no charge is
    above it. *)
Theorem max_charges_is_maximum (filtered : DataFrame) (r0 : Row) :
  In r0 filtered -> is_nan (charges r0) = false ->
  (exists r, In r filtered /\ max_charges filtered = charges r)
  /\ is_nan (max_charges filtered) = false
  /\ (forall r, In r filtered -> is_nan (charges r) = false ->
        (charges r <=? max_charges filtered)%float = true)
  /\ (forall r, In r filtered ->
        (max_charges filtered <? charges r)%float = false).
Proof.
  intros Hin Hn.
  assert (Hmax : max_charges filtered = Series_max (map charges filtered)).
  { unfold max_charges. destruct filtered; [destruct Hin|reflexivity]. }
  rewrite Hmax.
  destruct (Series_min_max_bounds (map charges filtered) (charges r0)
              (in_map charges filtered r0 Hin) Hn) as (_ & _ & _ & Hmem & Hnn).
  assert (Hle : forall r, In r filtered -> is_nan (charges r) = false ->
            (charges r <=? Series_max (map charges filtered))%float = true).
  { intros r Hr Hrn.
    now destruct (Series_min_max_bounds (map charges filtered) (charges r)
                    (in_map charges filtered r Hr) Hrn) as (_ & H & _). }
  split.
  { apply in_map_iff in Hmem. destruct Hmem as (r & Hr1 & Hr2).
    exists r. split; congruence. }
  split; [exact Hnn|]. split; [exact Hle|].
  intros r Hr. destruct (is_nan (charges r)) eqn:E.
  - now apply ltb_nan_r.
  - apply leb_not_ltb. now apply Hle.
Qed.

(** The theorem at work on three rows. *)
Lemma max_charges_is_maximum_witness :
  max_charges three_rows = 27808.7251%float
  /\ is_nan (max_charges three_rows) = false.
Proof.
  split; [reflexivity|].
  apply (max_charges_is_maximum three_rows
           (mkRow 19 "female" 27.9 0 "yes" "southwest" 16884.924)).
  - left. reflexivity.
  - reflexivity.
Defined.

Section MoreMetrics.

Context {numpy : NumPy}.

(** What the metric block computes on a frame with rows. *)
Lemma smoker_multiplier_with_rows (filtered : DataFrame) :
  filtered <> [] ->
  smoker_multiplier filtered
  = let N := match charges_where "yes" filtered with
             | [] => 0%float
             | _ => Series_mean (charges_where "yes" filtered)
             end in
    let D := match charges_where "no" filtered with
             | [] => 1%float
             | _ => Series_mean (charges_where "no" filtered)
             end in
    if (0 <? D)%float then (N / D)%float else 0%float.
Proof.
  intros Hne. unfold smoker_multiplier.
  destruct filtered as [|r t]; [congruence|].
  cbn [List.length Nat.ltb Nat.leb].
  destruct (charges_where "yes" (r :: t)), (charges_where "no" (r :: t));
    reflexivity.
Qed.

Lemma filtered_df_smoker (df : DataFrame) (c : Sidebar) (r : Row) :
  smoker_filter c <> "All" -> In r (filtered_df df c) ->
  smoker r = smoker_filter c.
Proof.
  intros Hs. rewrite filtered_df_passes, filter_In. unfold passes.
  rewrite !andb_true_iff, !orb_true_iff, !String.eqb_eq.
  intros [_ [[_ [H|H]] _]]; [contradiction|exact H].
Qed.

(** The smoking multiplier under a smoker selection.  When the sidebar
    selects the non-smokers the multiplier shown is 0; when it selects the
    smokers and some row is left, the multiplier shown is the average
    charge of the rows divided by 1, since the guard value 1 stands for
    the absent non-smokers. *)
Theorem smoker_multiplier_under_smoker_filter (df : DataFrame) (c : Sidebar) :
  (smoker_filter c = "no" ->
   smoker_multiplier (filtered_df df c) = 0%float)
  /\ (smoker_filter c = "yes" -> filtered_df df c <> [] ->
      smoker_multiplier (filtered_df df c)
      = (avg_charges (filtered_df df c) / 1)%float).
Proof.
  split.
  - intros Hs.
    assert (Hyes : charges_where "yes" (filtered_df df c) = []).
    { unfold charges_where. rewrite filter_none; [reflexivity|].
      intros r Hr. rewrite (filtered_df_smoker df c r); [now rewrite Hs| |exact Hr].
      rewrite Hs. discriminate. }
    destruct (filtered_df df c) as [|r t] eqn:E; [reflexivity|].
    rewrite smoker_multiplier_with_rows by discriminate. rewrite Hyes.
    cbv zeta. destruct (0 <? _)%float eqn:HD; [|reflexivity].
    now apply zero_div_pos.
  - intros Hs Hne.
    assert (Hall : forall r, In r (filtered_df df c) -> smoker r = "yes").
    { intros r Hr. rewrite <- Hs. apply (filtered_df_smoker df c r); trivial.
      rewrite Hs. discriminate. }
    assert (Hyes : charges_where "yes" (filtered_df df c)
                   = map charges (filtered_df df c)).
    { unfold charges_where. rewrite filter_all; [reflexivity|].
      intros r Hr. now rewrite (Hall r Hr). }
    assert (Hno : charges_where "no" (filtered_df df c) = []).
    { unfold charges_where. rewrite filter_none; [reflexivity|].
      intros r Hr. now rewrite (Hall r Hr). }
    rewrite smoker_multiplier_with_rows by assumption.
    rewrite Hyes, Hno. unfold avg_charges.
    destruct (filtered_df df c) as [|r t]; [congruence|]. reflexivity.
Qed.

(** ** Further properties of the generated table *)



(** ** Further properties of the age chart *)

(** A row is left out of every age group exactly when it is younger than
    17 or older than 65. *)
Lemma age_group_missing (r : Row) :
  age_group r = None <-> (age r < 17 \/ 65 < age r)%Z.
Proof.
  rewrite age_group_intervals.
  repeat match goal with
  | |- context [(?a <? ?b)%Z] => destruct (Z.ltb_spec a b)
  | |- context [(?a <=? ?b)%Z] => destruct (Z.leb_spec a b)
  end; cbn; split; intros K; try discriminate; try reflexivity; lia.
Qed.

Lemma age_group_label_known (r : Row) (lab : string) :
  age_group r = Some lab -> In lab age_labels.
Proof.
  rewrite age_group_intervals.
  repeat match goal with
  | |- context [if ?b then _ else _] => destruct b
  end; intros [= <-]; cbn; tauto.
Qed.

(** Rows younger than 17 or older than 65 count in no bar of the age
    chart: the chart is the same without them, and it has no bar at all
    exactly when every row is such a row. *)
Theorem age_group_avg_ignores_outside (filtered : DataFrame) :
  age_group_avg
    (filter (fun r => (17 <=? age r)%Z && (age r <=? 65)%Z) filtered)
  = age_group_avg filtered
  /\ (age_group_avg filtered = []
      <-> Forall (fun r => (age r < 17 \/ 65 < age r)%Z) filtered).
Proof.
  assert (Hin : forall r lab, has_label lab (age_group r) = true ->
            ((17 <=? age r)%Z && (age r <=? 65)%Z) = true).
  { intros r lab H. destruct (age_group r) as [l|] eqn:E; [|discriminate].
    destruct ((17 <=? age r)%Z && (age r <=? 65)%Z) eqn:B; [reflexivity|].
    assert (Hnone : age_group r = None).
    { apply age_group_missing. apply andb_false_iff in B.
      destruct B as [B|B]; [apply Z.leb_gt in B|apply Z.leb_gt in B]; lia. }
    congruence. }
  split.
  - unfold age_group_avg. apply flat_map_ext. intros lab.
    rewrite filter_filter.
    replace (filter (fun x => (17 <=? age x)%Z && (age x <=? 65)%Z
                              && has_label lab (age_group x)) filtered)
      with (filter (fun r => has_label lab (age_group r)) filtered);
      [reflexivity|].
    apply filter_ext. intros r.
    destruct (has_label lab (age_group r)) eqn:E;
      [now rewrite (Hin r lab E)|now rewrite andb_false_r].
  - rewrite Forall_forall. split.
    + intros Hempty r Hr. apply age_group_missing.
      destruct (age_group r) as [lab|] eqn:E; [exfalso|reflexivity].
      assert (Hg : In r (filter (fun r => has_label lab (age_group r))
                           filtered)).
      { apply filter_In. split; [exact Hr|]. rewrite E. cbn.
        apply String.eqb_refl. }
      assert (Hbar : exists m, In (lab, m) (age_group_avg filtered)).
      { unfold age_group_avg.
        destruct (filter (fun r => has_label lab (age_group r)) filtered)
          as [|g gs] eqn:Eg; [destruct Hg|].
        eexists. apply in_flat_map. exists lab.
        split; [eapply age_group_label_known; eassumption|].
        rewrite Eg. left. reflexivity. }
      destruct Hbar as [m Hm]. rewrite Hempty in Hm. destruct Hm.
    + intros Hout. unfold age_group_avg.
      assert (Hnone : forall lab,
                filter (fun r => has_label lab (age_group r)) filtered = []).
      { intros lab. apply filter_none. intros r Hr.
        apply Hout, age_group_missing in Hr. now rewrite Hr. }
      unfold age_labels. cbn [flat_map]. now rewrite !Hnone.
Qed.

End MoreMetrics.

(** The theorem for the smoker selections at work on three rows, two of
    them smokers. *)
Lemma smoker_multiplier_under_smoker_filter_witness :
  smoker_filter wide_selection = "yes"
  /\ List.length (filtered_df three_rows wide_selection) = 2%nat
  /\ smoker_multiplier (numpy := small_numpy)
       (filtered_df three_rows wide_selection)
     = (avg_charges (numpy := small_numpy)
          (filtered_df three_rows wide_selection) / 1)%float.
Proof.
  split; [reflexivity|]. split; [reflexivity|].
  apply (smoker_multiplier_under_smoker_filter (numpy := small_numpy)
           three_rows wide_selection).
  - reflexivity.
  - discriminate.
Defined.

(** ** Further properties of the premium calculator *)

Lemma dict_get_missing (d : list (string * float)) (key : string)
  (default : float) :
  ~ In key (map fst d) -> dict_get d key default = default.
Proof.
  induction d as [|[k v] rest IH]; simpl; [reflexivity|].
  intros Hnot. destruct (String.eqb_spec k key) as [->|Hk]; [tauto|].
  apply IH. tauto.
Qed.

(** A region that is not in the table of multipliers is priced with the
    multiplier 1.0, that is, exactly as the southwest. *)
Theorem unknown_region_priced_as_southwest (calc_age : Z) (calc_bmi : float)
  (calc_smoker calc_region : string) (calc_children : Z) :
  ~ In calc_region (map fst regional_multipliers) ->
  calculate_premium calc_age calc_bmi calc_smoker calc_region calc_children
  = calculate_premium calc_age calc_bmi calc_smoker "southwest" calc_children.
Proof.
  intros Hnot. unfold calculate_premium.
  rewrite (dict_get_missing _ _ _ Hnot). reflexivity.
Qed.

(** The theorem at work on a region outside the table. *)
Lemma unknown_region_priced_as_southwest_witness :
  calculate_premium 35 25 "no" "midwest" 0
  = calculate_premium 35 25 "no" "southwest" 0.
Proof.
  apply (unknown_region_priced_as_southwest 35 25 "no" "midwest" 0).
  cbn. intros [H|[H|[H|[H|[]]]]]; discriminate H.
Defined.

(** The risk lines agree with the amounts of the quote.  The obesity line
    is listed exactly when the obesity premium of 4623 is charged; the
    smoking line is listed only when the base premium is the smokers'
    32050; and the low-risk note is shown exactly when the smoker field
    is not ["yes"], the bmi is not 30 or more and the age is below 50. *)
Theorem risk_lines_match_quote (calc_age : Z) (calc_bmi : float)
  (calc_smoker calc_region : string) (calc_children : Z) (q : PremiumQuote) :
  calculate_premium calc_age calc_bmi calc_smoker calc_region calc_children
  = Some q ->
  (In bmi_risk (risk_factors calc_age calc_bmi calc_smoker)
   <-> bmi_adjustment q = 4623%Z)
  /\ (In smoking_risk (risk_factors calc_age calc_bmi calc_smoker)
      -> base_premium q = 32050%Z)
  /\ (risk_assessment calc_age calc_bmi calc_smoker = st_info_low_risk
      <-> calc_smoker <> "yes" /\ (30 <=? calc_bmi)%float = false
          /\ (calc_age < 50)%Z).
Proof.
  unfold calculate_premium.
  destruct (of_int calc_age) as [age_f|]; [|discriminate].
  destruct (of_int (calc_children * 150)) as [children_f|]; [|discriminate].
  cbn [bind]. intros [= <-]. cbn [bmi_adjustment base_premium].
  unfold risk_assessment, risk_factors, geb.
  destruct (String.eqb_spec calc_smoker "yes") as [Hy|Hy];
    destruct (String.eqb_spec calc_smoker "no") as [Hn|Hn];
    destruct (30 <=? calc_bmi)%float;
    destruct (Z.geb_spec calc_age 50) as [Ha|Ha];
    cbn [app In];
    (split; [split; [intros K|intros K]|split; [intros K|split; intros K]]);
    try reflexivity; try discriminate K; try congruence;
    try (repeat destruct K as [K|K]; try discriminate K; contradiction);
    try (left; reflexivity); try (right; left; reflexivity);
    try (destruct K as (K1 & K2 & K3); first [congruence | lia]);
    try (repeat split; first [assumption | reflexivity | lia]).
Qed.

(** The theorem at work on the default entries of the calculator. *)
Lemma risk_lines_match_quote_witness :
  risk_assessment 35 25 "no" = st_info_low_risk
  /\ risk_factors 60 32 "yes" = [smoking_risk; bmi_risk; age_risk].
Proof.
  split; [|reflexivity].
  destruct (calculate_premium 35 25 "no" "southwest" 0) as [q|] eqn:E;
    [|discriminate E].
  destruct (risk_lines_match_quote 35 25 "no" "southwest" 0 q E)
    as (_ & _ & Hlow).
  apply Hlow. split; [discriminate|]. split; [reflexivity|lia].
Defined.

(** ** The options of the region select boxes *)

Lemma seen_In (x : string) (seen : list string) :
  existsb (String.eqb x) seen = true <-> In x seen.
Proof.
  rewrite existsb_exists. split.
  - intros (y & Hy & E). apply String.eqb_eq in E. now subst.
  - intros H. exists x. split; [exact H|apply String.eqb_refl].
Qed.

Lemma unique_from_In (l seen : list string) (s : string) :
  In s (unique_from seen l) <-> In s l /\ ~ In s seen.
Proof.
  revert seen. induction l as [|x rest IH]; intros seen; simpl; [tauto|].
  destruct (existsb (String.eqb x) seen) eqn:E.
  - apply seen_In in E. rewrite IH. split.
    + tauto.
    + intros [[<-|H] Hn]; tauto.
  - assert (Hx : ~ In x seen).
    { intros H. apply seen_In in H. congruence. }
    simpl. rewrite IH. simpl. split.
    + intros [<-|[H Hn]]; tauto.
    + intros [[<-|H] Hn]; [now left|].
      destruct (String.eqb_spec x s) as [->|Hne]; [now left|right; tauto].
Qed.

Lemma unique_from_NoDup (l seen : list string) : NoDup (unique_from seen l).
Proof.
  revert seen. induction l as [|x rest IH]; intros seen; simpl;
    [constructor|].
  destruct (existsb (String.eqb x) seen); [apply IH|].
  constructor; [|apply IH].
  rewrite unique_from_In. simpl. tauto.
Qed.

Lemma insert_sorted_In (x s : string) (l : list string) :
  In s (insert_sorted x l) <-> s = x \/ In s l.
Proof.
  induction l as [|y rest IH]; simpl; [intuition congruence|].
  destruct (String.leb x y); simpl; [intuition congruence|].
  rewrite IH. intuition congruence.
Qed.

Lemma sorted_In (l : list string) (s : string) : In s (sorted l) <-> In s l.
Proof.
  induction l as [|x rest IH]; simpl; [tauto|].
  rewrite insert_sorted_In, IH. intuition congruence.
Qed.

Lemma insert_sorted_NoDup (x : string) (l : list string) :
  ~ In x l -> NoDup l -> NoDup (insert_sorted x l).
Proof.
  induction l as [|y rest IH]; simpl; intros Hx Hl.
  - constructor; [tauto|constructor].
  - destruct (String.leb x y).
    + constructor; [simpl; tauto|exact Hl].
    + inversion Hl as [|? ? Hy Hrest]; subst. constructor.
      * rewrite insert_sorted_In. intros [->|H]; tauto.
      * apply IH; tauto.
Qed.

Lemma sorted_NoDup (l : list string) : NoDup l -> NoDup (sorted l).
Proof.
  induction l as [|x rest IH]; simpl; intros Hl; [constructor|].
  inversion Hl as [|? ? Hx Hrest]; subst.
  apply insert_sorted_NoDup; [now rewrite sorted_In|now apply IH].
Qed.

Lemma insert_sorted_Sorted (x : string) (l : list string) :
  Sorted (fun a b => String.leb a b = true) l ->
  Sorted (fun a b => String.leb a b = true) (insert_sorted x l).
Proof.
  induction l as [|y rest IH]; simpl; intros Hl.
  - repeat constructor.
  - destruct (String.leb x y) eqn:E.
    + constructor; [exact Hl|]. constructor. exact E.
    + inversion Hl as [|? ? Hrest Hhd]; subst.
      constructor; [now apply IH|].
      assert (Hyx : String.leb y x = true).
      { destruct (String.leb_total x y) as [H|H]; [congruence|exact H]. }
      destruct rest as [|z rest']; simpl.
      * constructor. exact Hyx.
      * destruct (String.leb x z); constructor; [exact Hyx|].
        now inversion Hhd.
Qed.

Lemma sorted_Sorted (l : list string) :
  Sorted (fun a b => String.leb a b = true) (sorted l).
Proof.
  induction l as [|x rest IH]; simpl; [constructor|].
  now apply insert_sorted_Sorted.
Qed.

(** The sidebar offers ["All"] and exactly the regions that occur in the
    data; the calculator offers exactly those regions.  No region is
    offered twice, and the regions are listed in increasing order. *)
Theorem region_options_are_the_regions (df : DataFrame) :
  (forall s, In s (region_options df)
             <-> s = "All" \/ exists r, In r df /\ region r = s)
  /\ (forall s, In s (calc_region_options df)
                <-> exists r, In r df /\ region r = s)
  /\ NoDup (calc_region_options df)
  /\ Sorted (fun a b => String.leb a b = true) (calc_region_options df)
  /\ region_options df = "All" :: calc_region_options df.
Proof.
  assert (Hin : forall s, In s (calc_region_options df)
                          <-> exists r, In r df /\ region r = s).
  { intros s. unfold calc_region_options, unique.
    rewrite sorted_In, unique_from_In, in_map_iff. simpl.
    split; [intros [(r & H1 & H2) _]|intros (r & H1 & H2); split; [|tauto]];
      exists r; tauto. }
  split.
  - intros s. unfold region_options. simpl.
    fold (calc_region_options df). rewrite Hin.
    split; intros [H|H]; auto.
  - split; [exact Hin|]. split.
    + apply sorted_NoDup, unique_from_NoDup.
    + split; [apply sorted_Sorted|reflexivity].
Qed.

End DashboardProps.

(** ** The bucketizer *)

Module BucketizerProps.

Import F64 F64Facts Bucketizer.
Local Open Scope string_scope.
Local Open Scope list_scope.

(** *** The bands against the threshold tables *)

(** Every comparison of [x] with a constant is read on ranks, and the rank
    of the constant is computed. *)
Ltac compare_on_ranks x Hx :=
  repeat match goal with
  | H : (x <? ?c)%float = true |- _ =>
      apply (proj1 (ltb_rank x c Hx eq_refl)) in H
  | H : (x <? ?c)%float = false |- _ =>
      apply (proj1 (ltb_false_rank x c Hx eq_refl)) in H
  | H : (?c <=? x)%float = true |- _ =>
      apply (proj1 (leb_rank c x eq_refl Hx)) in H
  | H : (?c <=? x)%float = false |- _ =>
      apply (proj1 (leb_false_rank c x eq_refl Hx)) in H
  end;
  repeat match goal with
  | H : context [frank ?c] |- _ =>
      tryif is_var c then fail
      else (let v := eval vm_compute in (frank c) in
            change (frank c) with v in H)
  end;
  unfold lex_lt, lex_le in *;
  destruct (frank x) as [[? ?] ?].

Ltac split_comparisons x :=
  repeat match goal with
  | |- context [(x <? ?c)%float] =>
      let E := fresh "E" in destruct (x <? c)%float eqn:E
  | |- context [(?c <=? x)%float] =>
      let E := fresh "E" in destruct (c <=? x)%float eqn:E
  end.

Ltac bracket_case x Hx :=
  cbn [in_bracket snd]; rewrite ?Hx; cbn [negb];
  split_comparisons x; cbn [andb];
  (split; intros K; first
    [ reflexivity
    | discriminate K
    | exfalso; clear K; compare_on_ranks x Hx; lia ]).

Lemma charges_band_table (x : float) (b : Bracket) :
  is_nan x = false -> In b charges_table ->
  charges_band x = snd b <-> in_bracket x b = true.
Proof.
  intros Hx Hb. unfold charges_table in Hb. cbn [In] in Hb.
  unfold charges_band.
  repeat (destruct Hb as [<-|Hb]; [bracket_case x Hx|]).
  destruct Hb.
Qed.

Lemma bmi_category_table (x : float) (b : Bracket) :
  is_nan x = false -> In b bmi_table ->
  bmi_category x = snd b <-> in_bracket x b = true.
Proof.
  intros Hx Hb. unfold bmi_table in Hb. cbn [In] in Hb.
  unfold bmi_category.
  repeat (destruct Hb as [<-|Hb]; [bracket_case x Hx|]).
  destruct Hb.
Qed.

(** C6.  For every number [x] (every float that is not a NaN) and every
    bracket of the two threshold tables, the function returns the label
    of the bracket exactly when [x] is at least its lower edge and
    strictly below its upper edge; and the four boundary examples. *)
Theorem bands_follow_tables (x : float) :
  is_nan x = false ->
  (forall b, In b charges_table ->
     charges_band x = snd b <-> in_bracket x b = true) /\
  (forall b, In b bmi_table ->
     bmi_category x = snd b <-> in_bracket x b = true) /\
  charges_band 4999.99 = "<5,000" /\
  charges_band 5000 = "5,000–9,999" /\
  bmi_category 29.9 = "25–29.9" /\
  bmi_category 30 = "30–34.9".
Proof.
  intros Hx.
  split; [intros b; now apply charges_band_table|].
  split; [intros b; now apply bmi_category_table|].
  repeat split; reflexivity.
Qed.

(** The theorem at work on 12345.67, which is in the third bracket of the
    charges table and in no bracket of the bmi table but the last. *)
Lemma bands_follow_tables_witness :
  is_nan 12345.67 = false
  /\ charges_band 12345.67 = "10,000–19,999"
  /\ bmi_category 12345.67 = "35+".
Proof.
  split; [reflexivity|].
  destruct (bands_follow_tables 12345.67 eq_refl) as (Hc & Hb & _).
  split.
  - apply (Hc (Some 10000, Some 20000, "10,000–19,999")%float).
    + cbn. auto.
    + reflexivity.
  - apply (Hb (Some 35, None, "35+")%float).
    + cbn. auto 6.
    + reflexivity.
Defined.

(** *** The script as a transformation of tables *)

Lemma getitem_setitem_same (df : Frame) (name : string) (c : Column) :
  getitem (setitem df name c) name = Some c.
Proof.
  induction df as [|[k old] rest IH]; simpl.
  - now rewrite String.eqb_refl.
  - destruct (k =? name) eqn:E; simpl; rewrite E; [reflexivity|exact IH].
Qed.

Lemma getitem_setitem_other (df : Frame) (name other : string) (c : Column) :
  other <> name ->
  getitem (setitem df name c) other = getitem df other.
Proof.
  intros Hne. induction df as [|[k old] rest IH]; simpl.
  - destruct (String.eqb_spec name other); [congruence|reflexivity].
  - destruct (String.eqb_spec k name) as [->|Hk]; simpl.
    + destruct (String.eqb_spec name other); [congruence|reflexivity].
    + now rewrite IH.
Qed.

Lemma names_setitem_present (df : Frame) (name : string) (c : Column) :
  In name (map fst df) -> map fst (setitem df name c) = map fst df.
Proof.
  induction df as [|[k old] rest IH]; simpl; [tauto|].
  intros [->|Hin].
  - now rewrite String.eqb_refl.
  - destruct (k =? name); simpl; [reflexivity|]. now rewrite IH.
Qed.

Lemma names_setitem_absent (df : Frame) (name : string) (c : Column) :
  ~ In name (map fst df) -> map fst (setitem df name c) = map fst df ++ [name].
Proof.
  induction df as [|[k old] rest IH]; simpl; [reflexivity|].
  intros Hnot. destruct (String.eqb_spec k name) as [->|Hk]; [tauto|].
  simpl. rewrite IH; tauto.
Qed.

Lemma getitem_names (df : Frame) (name : string) (c : Column) :
  getitem df name = Some c -> In name (map fst df).
Proof.
  induction df as [|[k old] rest IH]; simpl; [discriminate|].
  destruct (String.eqb_spec k name) as [->|Hk]; auto.
Qed.

(** C8.  On an input file whose table has the seven original columns (in
    any order), with an integer age column and float bmi and charges
    columns, the run succeeds and writes one file.  The columns of the
    written table are those of the input, in the same order, followed by
    exactly the four derived ones; every original column but charges is
    unchanged; charges is rounded to 2 decimals; each derived column is
    its bucketing function applied, row by row in the order of the rows,
    to the rounded charges, the bmi or the age.  The input file, and every
    file other than the written one, is as it was. *)
Theorem main_adds_four_columns (fs : Files) (df : Frame) (ages : list Z)
  (bmis chargess : list float) :
  fs input_file = Some df ->
  (forall name, In name (map fst df) <-> In name original_columns) ->
  getitem df "age" = Some (IntCol ages) ->
  getitem df "bmi" = Some (FloatCol bmis) ->
  getitem df "charges" = Some (FloatCol chargess) ->
  exists out fs',
    main fs = Some fs' /\
    fs' output_file = Some out /\
    fs' input_file = Some df /\
    (forall p, p <> output_file -> fs' p = fs p) /\
    map fst out = map fst df ++ derived_columns /\
    (forall name, In name original_columns -> name <> "charges" ->
       getitem out name = getitem df name) /\
    getitem out "charges" = Some (FloatCol (map round2 chargess)) /\
    getitem out "charges_band"
    = Some (StrCol (map charges_band (map round2 chargess))) /\
    getitem out "bmi_category" = Some (StrCol (map bmi_category bmis)) /\
    getitem out "age_group" = Some (StrCol (map age_group ages)) /\
    getitem out "age_group_label" = Some (StrCol (map age_group_label ages)).
Proof.
  intros Hfs Hnames Hage Hbmi Hcharges.
  set (df1 := setitem df "charges" (FloatCol (map round2 chargess))).
  set (df2 := setitem df1 "charges_band"
                (StrCol (map charges_band (map round2 chargess)))).
  set (df3 := setitem df2 "bmi_category" (StrCol (map bmi_category bmis))).
  set (df4 := setitem df3 "age_group" (StrCol (map age_group ages))).
  set (df5 := setitem df4 "age_group_label"
                (StrCol (map age_group_label ages))).
  assert (Hderived : forall name, In name derived_columns ->
                       ~ In name (map fst df)).
  { intros name Hd Hin. apply Hnames in Hin. cbn in Hd, Hin.
    repeat match goal with H : _ \/ _ |- _ => destruct H end;
      subst; try discriminate; assumption. }
  assert (Henrich : enrich df = Some df5).
  { unfold enrich. rewrite Hcharges. cbn [bind Series_round2]. fold df1.
    unfold df1 at 1. rewrite getitem_setitem_same. cbn [bind Series_apply].
    fold df2.
    assert (E2 : getitem df2 "bmi" = Some (FloatCol bmis)).
    { unfold df2, df1. now rewrite !getitem_setitem_other by discriminate. }
    rewrite E2. cbn [bind Series_apply]. fold df3.
    assert (E3 : getitem df3 "age" = Some (IntCol ages)).
    { unfold df3, df2, df1.
      now rewrite !getitem_setitem_other by discriminate. }
    rewrite E3. cbn [bind Series_apply]. fold df4.
    assert (E4 : getitem df4 "age" = Some (IntCol ages)).
    { unfold df4. now rewrite getitem_setitem_other by discriminate. }
    rewrite E4. cbn [bind Series_apply]. reflexivity. }
  assert (N1 : map fst df1 = map fst df).
  { apply names_setitem_present. eapply getitem_names; eassumption. }
  assert (N2 : map fst df2 = map fst df ++ ["charges_band"]).
  { unfold df2. rewrite names_setitem_absent; rewrite N1; [reflexivity|].
    apply Hderived. cbn. auto. }
  assert (N3 : map fst df3
               = map fst df ++ ["charges_band"; "bmi_category"]).
  { unfold df3. rewrite names_setitem_absent; rewrite N2.
    - now rewrite <- app_assoc.
    - rewrite in_app_iff. intros [H|H].
      + revert H. apply Hderived. cbn. auto.
      + cbn in H. destruct H as [H|[]]. discriminate. }
  assert (N4 : map fst df4
               = map fst df ++ ["charges_band"; "bmi_category"; "age_group"]).
  { unfold df4. rewrite names_setitem_absent; rewrite N3.
    - now rewrite <- app_assoc.
    - rewrite in_app_iff. intros [H|H].
      + revert H. apply Hderived. cbn. auto.
      + cbn in H. destruct H as [H|[H|[]]]; discriminate. }
  assert (N5 : map fst df5 = map fst df ++ derived_columns).
  { unfold df5. rewrite names_setitem_absent; rewrite N4.
    - now rewrite <- app_assoc.
    - rewrite in_app_iff. intros [H|H].
      + revert H. apply Hderived. cbn. auto 6.
      + cbn in H. destruct H as [H|[H|[H|[]]]]; discriminate. }
  exists df5, (to_csv fs output_file df5).
  split; [unfold main; rewrite Hfs; cbn [bind]; now rewrite Henrich|].
  split; [unfold to_csv; now rewrite String.eqb_refl|].
  split; [unfold to_csv; exact Hfs|].
  split.
  { intros p Hp. unfold to_csv.
    destruct (String.eqb_spec p output_file); [contradiction|reflexivity]. }
  split; [exact N5|].
  split.
  { intros name Hin Hne. unfold df5, df4, df3, df2, df1.
    cbn in Hin.
    repeat match goal with H : _ \/ _ |- _ => destruct H end;
      subst; try contradiction;
      now rewrite !getitem_setitem_other by discriminate. }
  unfold df5, df4, df3, df2, df1.
  repeat split;
    repeat first
      [ rewrite getitem_setitem_same; reflexivity
      | rewrite getitem_setitem_other by discriminate ].
Qed.

(** The theorem at work on a table of two rows: the second charge,
    4999.996, is rounded to 5000 and then falls in the second band. *)
Lemma main_adds_four_columns_witness :
  exists out fs',
    main a_folder = Some fs' /\
    fs' output_file = Some out /\
    fs' input_file = Some two_rows /\
    map fst out = original_columns ++ derived_columns /\
    getitem out "charges" = Some (FloatCol [16884.92; 5000]%float) /\
    getitem out "charges_band"
    = Some (StrCol ["10,000–19,999"; "5,000–9,999"]).
Proof.
  destruct (main_adds_four_columns a_folder two_rows [19; 60]%Z
              [27.9; 30]%float [16884.924; 4999.996]%float)
    as (out & fs' & Hmain & Hout & Hin & _ & Hnames & _ & Hch & Hband & _).
  - reflexivity.
  - intros name. cbn. tauto.
  - reflexivity.
  - reflexivity.
  - reflexivity.
  - exists out, fs'. repeat split; assumption.
Defined.

(** *** Further properties of the bucketing functions *)

(** The two age functions cut at the same ages.  Two ages get the same
    numeric group exactly when they get the same qualitative label; and
    the groups are the ages below 26 (whatever the age, also below 18),
    26 to 35, 36 to 45, 46 to 55, 56 to 65, and 66 or more. *)
Theorem age_groups_share_bins (v w : Z) :
  (age_group v = age_group w <-> age_group_label v = age_group_label w)
  /\ (age_group v = "18–25" <-> v < 26)%Z
  /\ (age_group v = "26–35" <-> 26 <= v < 36)%Z
  /\ (age_group v = "36–45" <-> 36 <= v < 46)%Z
  /\ (age_group v = "46–55" <-> 46 <= v < 56)%Z
  /\ (age_group v = "56–65" <-> 56 <= v < 66)%Z
  /\ (age_group v = "66+" <-> 66 <= v)%Z
  /\ (age_group_label v = "Young Adult" <-> v < 26)%Z
  /\ (age_group_label v = "Adult" <-> 26 <= v < 36)%Z
  /\ (age_group_label v = "Middle Age" <-> 36 <= v < 46)%Z
  /\ (age_group_label v = "Senior" <-> 46 <= v < 56)%Z
  /\ (age_group_label v = "Elder" <-> 56 <= v < 66)%Z
  /\ (age_group_label v = "Super Senior" <-> 66 <= v)%Z.
Proof.
  unfold age_group, age_group_label.
  repeat match goal with
  | |- context [(v <? ?b)%Z] => destruct (Z.ltb_spec v b); cbv beta iota
  end;
  (split;
   [ repeat match goal with
     | |- context [(w <? ?b)%Z] => destruct (Z.ltb_spec w b); cbv beta iota
     end;
     split; intros K; first [reflexivity | discriminate K]
   | do 11 (split; [split; intros K;
                    first [reflexivity | discriminate K | lia]|]);
     split; intros K; first [reflexivity | discriminate K | lia] ]).
Qed.

(** A missing value is put in the top band: every comparison with a NaN
    is false, so the last branch is taken. *)
Theorem missing_value_top_band (x : float) :
  is_nan x = true -> charges_band x = "50,000+" /\ bmi_category x = "35+".
Proof.
  intros Hx. unfold charges_band, bmi_category.
  now rewrite !(ltb_nan_l x _ Hx).
Qed.

Lemma missing_value_top_band_witness :
  charges_band nan = "50,000+" /\ bmi_category nan = "35+".
Proof. apply (missing_value_top_band nan). reflexivity. Defined.

Ltac pick_bracket table :=
  let rec go l :=
    lazymatch l with
    | ?b :: ?t => first [ exists b; split; [cbn; auto 10|reflexivity] | go t ]
    end in
  let tbl := eval unfold table in table in go tbl.

Lemma charges_band_in_table (x : float) :
  exists b, In b charges_table /\ charges_band x = snd b.
Proof.
  unfold charges_band.
  repeat match goal with
  | |- context [(x <? ?c)%float] => destruct (x <? c)%float; cbv beta iota
  end;
  pick_bracket charges_table.
Qed.

Lemma bmi_category_in_table (x : float) :
  exists b, In b bmi_table /\ bmi_category x = snd b.
Proof.
  unfold bmi_category.
  repeat match goal with
  | |- context [(x <? ?c)%float] => destruct (x <? c)%float; cbv beta iota
  end;
  pick_bracket bmi_table.
Qed.

Lemma in_bracket_between (x y z : float) (b : Bracket) :
  (x <=? y)%float = true -> (y <=? z)%float = true ->
  in_bracket x b = true -> in_bracket z b = true -> in_bracket y b = true.
Proof.
  intros Hxy Hyz. destruct (leb_not_nan x y Hxy) as [_ Hy].
  destruct b as [[[lo|] [hi|]] lab]; cbn [in_bracket];
    rewrite ?Hy; cbn [negb]; rewrite !andb_true_iff;
    intros [H1 H2] [H3 H4]; split; trivial.
  - exact (leb_trans lo x y H1 Hxy).
  - exact (leb_ltb_trans y z hi Hyz H4).
  - exact (leb_trans lo x y H1 Hxy).
  - exact (leb_ltb_trans y z hi Hyz H4).
Qed.

(** Each band is an interval: a value between two values of one band is
    in that band too, for the charges bands and for the bmi categories.
    So the band never goes back as the value grows. *)
Theorem bands_are_intervals (x y z : float) :
  (x <=? y)%float = true -> (y <=? z)%float = true ->
  (charges_band x = charges_band z -> charges_band y = charges_band x)
  /\ (bmi_category x = bmi_category z -> bmi_category y = bmi_category x).
Proof.
  intros Hxy Hyz.
  destruct (leb_not_nan x y Hxy) as [Hx Hy].
  destruct (leb_not_nan y z Hyz) as [_ Hz].
  split; intros Heq.
  - destruct (charges_band_in_table x) as (b & Hb & Hxb).
    rewrite Hxb. apply (charges_band_table y b Hy Hb).
    apply (in_bracket_between x y z b Hxy Hyz).
    + now apply (charges_band_table x b Hx Hb).
    + apply (charges_band_table z b Hz Hb). congruence.
  - destruct (bmi_category_in_table x) as (b & Hb & Hxb).
    rewrite Hxb. apply (bmi_category_table y b Hy Hb).
    apply (in_bracket_between x y z b Hxy Hyz).
    + now apply (bmi_category_table x b Hx Hb).
    + apply (bmi_category_table z b Hz Hb). congruence.
Qed.

(** The theorem at work between 10000 and 19999.99. *)
Lemma bands_are_intervals_witness :
  charges_band 15000 = charges_band 10000.
Proof.
  apply (bands_are_intervals 10000 15000 19999.99); reflexivity.
Defined.

(** *** Further properties of the script *)

Lemma names_setitem_keeps (df : Frame) (name other : string) (c : Column) :
  In other (map fst df) -> In other (map fst (setitem df name c)).
Proof.
  induction df as [|[k old] rest IH]; simpl; [tauto|].
  intros [->|Hin]; destruct (_ =? name); simpl; auto.
Qed.

Lemma names_setitem_has (df : Frame) (name : string) (c : Column) :
  In name (map fst (setitem df name c)).
Proof.
  eapply getitem_names. apply getitem_setitem_same.
Qed.

Lemma enrich_enriched (df : Frame) (ages : list Z)
  (bmis chargess : list float) :
  getitem df "age" = Some (IntCol ages) ->
  getitem df "bmi" = Some (FloatCol bmis) ->
  getitem df "charges" = Some (FloatCol chargess) ->
  enrich df = Some (enriched df ages bmis chargess).
Proof.
  intros Hage Hbmi Hch. unfold enrich, enriched. rewrite Hch.
  cbn [bind Series_round2]. rewrite getitem_setitem_same.
  cbn [bind Series_apply].
  rewrite !getitem_setitem_other by discriminate. rewrite Hbmi.
  cbn [bind Series_apply].
  rewrite !getitem_setitem_other by discriminate. rewrite Hage.
  cbn [bind Series_apply].
  rewrite !getitem_setitem_other by discriminate. rewrite Hage.
  reflexivity.
Qed.

(** Running the script on a table that it has already enriched adds no
    column a second time: the second run succeeds, the columns keep
    their names and their order, and every column but the charges and
    the charges band (the charges are rounded again) is unchanged. *)
Theorem enrich_again_keeps_columns (df : Frame) (ages : list Z)
  (bmis chargess : list float) :
  getitem df "age" = Some (IntCol ages) ->
  getitem df "bmi" = Some (FloatCol bmis) ->
  getitem df "charges" = Some (FloatCol chargess) ->
  exists out out2,
    enrich df = Some out /\ enrich out = Some out2 /\
    map fst out2 = map fst out /\
    (forall name, name <> "charges" -> name <> "charges_band" ->
       getitem out2 name = getitem out name) /\
    getitem out2 "charges"
    = Some (FloatCol (map round2 (map round2 chargess))).
Proof.
  intros Hage Hbmi Hch.
  set (out := enriched df ages bmis chargess).
  assert (Oage : getitem out "age" = Some (IntCol ages)).
  { unfold out, enriched. now rewrite !getitem_setitem_other by discriminate. }
  assert (Obmi : getitem out "bmi" = Some (FloatCol bmis)).
  { unfold out, enriched. now rewrite !getitem_setitem_other by discriminate. }
  assert (Och : getitem out "charges"
                = Some (FloatCol (map round2 chargess))).
  { unfold out, enriched. rewrite !getitem_setitem_other by discriminate.
    apply getitem_setitem_same. }
  assert (Ocat : getitem out "bmi_category"
                 = Some (StrCol (map bmi_category bmis))).
  { unfold out, enriched. rewrite !getitem_setitem_other by discriminate.
    apply getitem_setitem_same. }
  assert (Ogrp : getitem out "age_group"
                 = Some (StrCol (map age_group ages))).
  { unfold out, enriched. rewrite !getitem_setitem_other by discriminate.
    apply getitem_setitem_same. }
  assert (Olab : getitem out "age_group_label"
                 = Some (StrCol (map age_group_label ages))).
  { unfold out, enriched. apply getitem_setitem_same. }
  assert (Oband : In "charges_band" (map fst out)).
  { unfold out, enriched. do 3 apply names_setitem_keeps.
    apply names_setitem_has. }
  exists out, (enriched out ages bmis (map round2 chargess)).
  split; [now apply enrich_enriched|].
  split; [now apply enrich_enriched|].
  split.
  { unfold enriched at 1.
    rewrite names_setitem_present.
    2:{ do 4 apply names_setitem_keeps. eapply getitem_names; eassumption. }
    rewrite names_setitem_present.
    2:{ do 3 apply names_setitem_keeps. eapply getitem_names; eassumption. }
    rewrite names_setitem_present.
    2:{ do 2 apply names_setitem_keeps. eapply getitem_names; eassumption. }
    rewrite names_setitem_present.
    2:{ apply names_setitem_keeps. exact Oband. }
    apply names_setitem_present. eapply getitem_names; eassumption. }
  split.
  { intros name Hn1 Hn2. unfold enriched at 1.
    destruct (String.eqb_spec name "age_group_label") as [->|H5].
    { now rewrite getitem_setitem_same, Olab. }
    rewrite getitem_setitem_other by assumption.
    destruct (String.eqb_spec name "age_group") as [->|H4].
    { now rewrite getitem_setitem_same, Ogrp. }
    rewrite getitem_setitem_other by assumption.
    destruct (String.eqb_spec name "bmi_category") as [->|H3].
    { now rewrite getitem_setitem_same, Ocat. }
    now rewrite !getitem_setitem_other by assumption. }
  unfold enriched at 1. rewrite !getitem_setitem_other by discriminate.
  apply getitem_setitem_same.
Qed.

(** The theorem at work on the table of two rows. *)
Lemma enrich_again_keeps_columns_witness :
  exists out out2,
    enrich two_rows = Some out /\ enrich out = Some out2 /\
    map fst out2 = original_columns ++ derived_columns.
Proof.
  destruct (enrich_again_keeps_columns two_rows [19; 60]%Z
              [27.9; 30]%float [16884.924; 4999.996]%float
              eq_refl eq_refl eq_refl)
    as (out & out2 & H1 & H2 & H3 & _).
  exists out, out2. split; [exact H1|]. split; [exact H2|].
  rewrite H3. cbv in H1. injection H1 as <-. reflexivity.
Defined.

(** Without one of the three columns it reads, the script stops on a
    [KeyError] before it writes: no table is produced and no file is
    written. *)
Theorem enrich_needs_its_columns (fs : Files) (df : Frame) :
  fs input_file = Some df ->
  getitem df "charges" = None \/ getitem df "bmi" = None
  \/ getitem df "age" = None ->
  enrich df = None /\ main fs = None.
Proof.
  intros Hfs Hmiss.
  assert (He : enrich df = None).
  { unfold enrich.
    destruct (getitem df "charges") as [c|] eqn:Ec; [|reflexivity].
    cbn [bind]. destruct (Series_round2 c) as [v|]; [|reflexivity].
    cbn [bind]. rewrite getitem_setitem_same. cbn [bind].
    destruct (Series_apply charges_band_int charges_band v) as [w|];
      [|reflexivity].
    cbn [bind]. rewrite !getitem_setitem_other by discriminate.
    destruct (getitem df "bmi") as [cb|] eqn:Eb; [|reflexivity].
    cbn [bind].
    destruct (Series_apply bmi_category_int bmi_category cb) as [vb|];
      [|reflexivity].
    cbn [bind]. rewrite !getitem_setitem_other by discriminate.
    destruct (getitem df "age") as [ca|] eqn:Ea; [|reflexivity].
    destruct Hmiss as [H|[H|H]]; discriminate H. }
  split; [exact He|]. unfold main. rewrite Hfs. cbn [bind]. now rewrite He.
Qed.

(** The theorem at work on a table without its age column. *)
Lemma enrich_needs_its_columns_witness :
  enrich no_age_column = None.
Proof.
  apply (enrich_needs_its_columns
           (fun p => if p =? input_file then Some no_age_column else None)
           no_age_column).
  - reflexivity.
  - right. right. reflexivity.
Defined.

(** The script also runs on a table whose charges and bmi are whole
    numbers and whose ages are floats: the integers are kept by the
    rounding and are compared exactly. *)
Example enrich_other_kinds :
  enrich other_kinds
  = Some [ ("age", FloatCol [19; 60.5]%float);
           ("bmi", IntCol [18; 30]%Z);
           ("charges", IntCol [4999; 5000]%Z);
           ("charges_band", StrCol ["<5,000"; "5,000–9,999"]);
           ("bmi_category", StrCol ["<18.5"; "30–34.9"]);
           ("age_group", StrCol ["18–25"; "56–65"]);
           ("age_group_label", StrCol ["Young Adult"; "Elder"]) ].
Proof. reflexivity. Qed.

End BucketizerProps.
